(** * Fleet management canister: record stores and their handlers

    A shallow embedding of [src/dfinity_js_backend/src/index.ts].  The
    source holds two handler sets over the same seven stable maps; they are
    embedded side by side as the modules [First] and [Second]. *)

From Stdlib Require Import String Ascii List Bool NArith ZArith Lia.
Import ListNotations.
Open Scope string_scope.

(** ** Text

    A Candid [text] is kept as the sequence of its UTF-8 bytes.  Equality,
    emptiness, trimming and number parsing are the only operations the
    handlers apply to it, and on well-formed UTF-8 they coincide with the
    same operations on the JavaScript string. *)

Definition text := string.

(** [!s] for a string: only the empty string is falsy. *)
Definition falsy (s : text) : bool :=
  match s with
  | EmptyString => true
  | String _ _ => false
  end.

Definition code (a : ascii) : N := N_of_ascii a.

(** White space and line terminators whose UTF-8 encoding is one byte:
    U+0009 to U+000D and U+0020. *)
Definition ws1 (a : ascii) : bool :=
  ((9 <=? code a) && (code a <=? 13))%N || (code a =? 32)%N.

(** Two bytes: U+0085 is not white space in JavaScript, U+00A0 is. *)
Definition ws2 (a b : ascii) : bool :=
  (code a =? 194)%N && (code b =? 160)%N.

(** Three bytes: U+1680, U+2000 to U+200A, U+2028, U+2029, U+202F, U+205F,
    U+3000 and U+FEFF. *)
Definition ws3 (a b c : ascii) : bool :=
  let x := code a in
  let y := code b in
  let z := code c in
  ((x =? 225) && (y =? 154) && (z =? 128))%N
  || ((x =? 226) && (y =? 128)
      && (((128 <=? z) && (z <=? 138)) || (z =? 168) || (z =? 169) || (z =? 175)))%N
  || ((x =? 226) && (y =? 129) && (z =? 159))%N
  || ((x =? 227) && (y =? 128) && (z =? 128))%N
  || ((x =? 239) && (y =? 187) && (z =? 191))%N.

(** The text without its leading white space. *)
Fixpoint trimStart (s : text) : text :=
  match s with
  | EmptyString => s
  | String a r1 =>
      if ws1 a then trimStart r1
      else
        match r1 with
        | EmptyString => s
        | String b r2 =>
            if ws2 a b then trimStart r2
            else
              match r2 with
              | EmptyString => s
              | String c r3 => if ws3 a b c then trimStart r3 else s
              end
        end
  end.

(** [id && id.trim().length > 0].  Trimming leaves a non-empty text exactly
    when something is left after the leading white space is dropped. *)
Definition validateId (id : text) : bool :=
  negb (falsy id) && negb (falsy (trimStart id)).

(** A text made of white space only, stated on its own. *)
Inductive blank : text -> Prop :=
| blank_nil : blank ""
| blank_1 a s : ws1 a = true -> blank s -> blank (String a s)
| blank_2 a b s : ws2 a b = true -> blank s -> blank (String a (String b s))
| blank_3 a b c s :
    ws3 a b c = true -> blank s -> blank (String a (String b (String c s))).

(** ** parseFloat

    The Number is kept as the exact decimal its literal denotes.  The
    handlers only compare it with zero, and for the double nearest to a
    decimal that comparison is decided by the sign and by the underflow
    threshold. *)

Inductive Number :=
| NaN
| Infinity (negative : bool)
| Decimal (negative : bool) (mantissa : N) (exponent : Z).

Definition is_digit (a : ascii) : bool :=
  ((48 <=? code a) && (code a <=? 57))%N.

(** Reads a run of decimal digits: the number read so far, how many digits
    were read, and the rest of the text. *)
Fixpoint read_digits (s : text) (acc : N) (cnt : nat) : N * nat * text :=
  match s with
  | EmptyString => (acc, cnt, s)
  | String a r =>
      if is_digit a then read_digits r (10 * acc + (code a - 48))%N (S cnt)
      else (acc, cnt, s)
  end.

(** [ExponentPart], when one is there: [e] or [E], an optional sign and at
    least one digit.  Anything shorter is not part of the literal. *)
Definition read_exponent (s : text) : Z :=
  match s with
  | String a r =>
      if ((code a =? 101) || (code a =? 69))%N then
        match r with
        | String sg r' =>
            if (code sg =? 45)%N then
              match read_digits r' 0%N 0 with
              | (_, O, _) => 0%Z
              | (v, S _, _) => (- Z.of_N v)%Z
              end
            else if (code sg =? 43)%N then
              match read_digits r' 0%N 0 with
              | (_, O, _) => 0%Z
              | (v, S _, _) => Z.of_N v
              end
            else
              match read_digits r 0%N 0 with
              | (_, O, _) => 0%Z
              | (v, S _, _) => Z.of_N v
              end
        | EmptyString => 0%Z
        end
      else 0%Z
  | EmptyString => 0%Z
  end.

(** The longest prefix that is a [StrUnsignedDecimalLiteral]. *)
Definition read_unsigned (negative : bool) (s : text) : Number :=
  if prefix "Infinity" s then Infinity negative
  else
    match read_digits s 0%N 0 with
    | (ip, ni, String "." r) =>
        match read_digits r ip 0 with
        | (m, nf, rest) =>
            match ni, nf with
            | O, O => NaN
            | _, _ => Decimal negative m (read_exponent rest - Z.of_nat nf)
            end
        end
    | (_, O, _) => NaN
    | (ip, S _, rest) => Decimal negative ip (read_exponent rest)
    end.

Definition parseFloat (s : text) : Number :=
  match trimStart s with
  | String "+" r => read_unsigned false r
  | String "-" r => read_unsigned true r
  | t => read_unsigned false t
  end.

(** Whether the double nearest to [m * 10^e] is zero: the decimal is at
    most half of the least positive double, [2^-1075], the tie going to the
    even neighbour, which is zero. *)
Definition rounds_to_zero (m : N) (e : Z) : bool :=
  if (m =? 0)%N then true
  else if (0 <=? e)%Z then false
  else (Z.of_N m * 2 ^ 1075 <=? 10 ^ (- e))%Z.

(** [x <= 0] on Numbers.  [NaN] compares false with everything, and a
    negative literal gives a negative double or [-0]. *)
Definition le_zero (x : Number) : bool :=
  match x with
  | NaN => false
  | Infinity negative => negative
  | Decimal true _ _ => true
  | Decimal false m e => rounds_to_zero m e
  end.

(** ** Data model *)

Definition Principal := text.

Module VehicleStatus.
Inductive t := Available | Booked | Maintenance.
End VehicleStatus.

Module Driver.
Record t := mk {
  id : text;
  owner : Principal;
  name : text;
  license_number : text;
  contact_info : text;
  points : N;
  created_at : N }.
End Driver.

Module Vehicle.
Record t := mk {
  id : text;
  registration_number : text;
  model : text;
  capacity : N;
  status : VehicleStatus.t;
  location : text;
  created_at : N }.
End Vehicle.

Module Booking.
Record t := mk {
  id : text;
  vehicle_id : text;
  driver_id : text;
  from_location : text;
  to_location : text;
  start_time : N;
  end_time : N;
  status : text;
  created_at : N }.
End Booking.

Module FuelConsumption.
Record t := mk {
  id : text;
  vehicle_id : text;
  amount : text;
  date : N }.
End FuelConsumption.

Module Maintenance.
Record t := mk {
  id : text;
  vehicle_id : text;
  description : text;
  scheduled_date : N;
  status : text;
  created_at : N }.
End Maintenance.

Module EmergencyAssistance.
Record t := mk {
  id : text;
  vehicle_id : text;
  description : text;
  location : text;
  status : text;
  created_at : N }.
End EmergencyAssistance.

Module Route.
Record t := mk {
  id : text;
  from_location : text;
  to_location : text;
  optimized_route : text;
  distance : text;
  time_estimate : N }.
End Route.

Module DriverPayload.
Record t := mk {
  name : text;
  license_number : text;
  contact_info : text }.
End DriverPayload.

Module VehiclePayload.
Record t := mk {
  registration_number : text;
  model : text;
  capacity : N;
  location : text }.
End VehiclePayload.

Module BookingPayload.
Record t := mk {
  vehicle_id : text;
  driver_id : text;
  from_location : text;
  to_location : text;
  start_time : N;
  end_time : N }.
End BookingPayload.

Module FuelConsumptionPayload.
Record t := mk {
  vehicle_id : text;
  amount : text;
  date : N }.
End FuelConsumptionPayload.

Module MaintenancePayload.
Record t := mk {
  vehicle_id : text;
  description : text;
  scheduled_date : N }.
End MaintenancePayload.

Module EmergencyAssistancePayload.
Record t := mk {
  vehicle_id : text;
  description : text;
  location : text }.
End EmergencyAssistancePayload.

Module RoutePayload.
Record t := mk {
  from_location : text;
  to_location : text }.
End RoutePayload.

Inductive Message :=
| Success (m : text)
| Error (m : text)
| NotFound (m : text)
| InvalidPayload (m : text).

Inductive Result (T : Type) :=
| Ok (v : T)
| Err (m : Message).

Arguments Ok {T} v.
Arguments Err {T} m.

(** ** The JavaScript values the availability checks compare *)

Inductive JsValue :=
| JsUndefined
| JsNull
| JsString (s : text)
| JsVariant (tag : VehicleStatus.t).

(** [a === b] against a primitive [b]: the same type and the same value.
    A variant is an object, and no object is a primitive. *)
Definition strict_eq_primitive (a b : JsValue) : bool :=
  match a, b with
  | JsUndefined, JsUndefined => true
  | JsNull, JsNull => true
  | JsString x, JsString y => (x =? y)
  | _, _ => false
  end.

(** [status.Available]: the variant object has the one property that names
    its tag, holding [null]. *)
Definition Available_property (tag : VehicleStatus.t) : JsValue :=
  match tag with
  | VehicleStatus.Available => JsNull
  | _ => JsUndefined
  end.

(** ** What the handlers take from the host

    The stable map iterates in its own key order, and [===] between a
    decoded owner and the object [ic.caller()] returns is decided by the
    runtime.  Both are left to the host. *)

Class Host := {
  key_lt : text -> text -> bool;
  same_object : Principal -> Principal -> bool }.

(** The replica hands each call its caller, its time and, through
    [uuidv4], an identifier. *)
Record Env := {
  caller : Principal;
  time : N;
  uuidv4 : text }.

(** ** StableBTreeMap

    A map is the list of its entries in iteration order. *)

Definition StableBTreeMap (V : Type) := list (text * V).

Fixpoint get {V : Type} (k : text) (m : StableBTreeMap V) : option V :=
  match m with
  | [] => None
  | (k', v') :: rest => if (k =? k') then Some v' else get k rest
  end.

(** The entry of a key that is present is overwritten where it stands. *)
Fixpoint replace {V : Type} (k : text) (v : V) (m : StableBTreeMap V)
  : StableBTreeMap V :=
  match m with
  | [] => []
  | (k', v') :: rest =>
      if (k =? k') then (k, v) :: rest else (k', v') :: replace k v rest
  end.

(** A new entry goes in front of the first key that is greater. *)
Fixpoint place `{Host} {V : Type} (k : text) (v : V) (m : StableBTreeMap V)
  : StableBTreeMap V :=
  match m with
  | [] => [(k, v)]
  | (k', v') :: rest =>
      if key_lt k k' then (k, v) :: (k', v') :: rest
      else (k', v') :: place k v rest
  end.

Definition insert `{Host} {V : Type} (k : text) (v : V) (m : StableBTreeMap V)
  : StableBTreeMap V :=
  match get k m with
  | Some _ => replace k v m
  | None => place k v m
  end.

Definition remove {V : Type} (k : text) (m : StableBTreeMap V)
  : StableBTreeMap V :=
  filter (fun kv => negb (k =? fst kv)) m.

Definition values {V : Type} (m : StableBTreeMap V) : list V :=
  map snd m.

Record State := {
  driverStorage : StableBTreeMap Driver.t;
  vehicleStorage : StableBTreeMap Vehicle.t;
  bookingStorage : StableBTreeMap Booking.t;
  fuelConsumptionStorage : StableBTreeMap FuelConsumption.t;
  maintenanceStorage : StableBTreeMap Maintenance.t;
  emergencyAssistanceStorage : StableBTreeMap EmergencyAssistance.t;
  routeStorage : StableBTreeMap Route.t }.

Definition empty_state : State :=
  {| driverStorage := []; vehicleStorage := []; bookingStorage := [];
     fuelConsumptionStorage := []; maintenanceStorage := [];
     emergencyAssistanceStorage := []; routeStorage := [] |}.

Definition with_driverStorage (m : StableBTreeMap Driver.t) (st : State) :=
  {| driverStorage := m;
     vehicleStorage := vehicleStorage st;
     bookingStorage := bookingStorage st;
     fuelConsumptionStorage := fuelConsumptionStorage st;
     maintenanceStorage := maintenanceStorage st;
     emergencyAssistanceStorage := emergencyAssistanceStorage st;
     routeStorage := routeStorage st |}.

Definition with_vehicleStorage (m : StableBTreeMap Vehicle.t) (st : State) :=
  {| driverStorage := driverStorage st;
     vehicleStorage := m;
     bookingStorage := bookingStorage st;
     fuelConsumptionStorage := fuelConsumptionStorage st;
     maintenanceStorage := maintenanceStorage st;
     emergencyAssistanceStorage := emergencyAssistanceStorage st;
     routeStorage := routeStorage st |}.

Definition with_bookingStorage (m : StableBTreeMap Booking.t) (st : State) :=
  {| driverStorage := driverStorage st;
     vehicleStorage := vehicleStorage st;
     bookingStorage := m;
     fuelConsumptionStorage := fuelConsumptionStorage st;
     maintenanceStorage := maintenanceStorage st;
     emergencyAssistanceStorage := emergencyAssistanceStorage st;
     routeStorage := routeStorage st |}.

Definition with_fuelConsumptionStorage
  (m : StableBTreeMap FuelConsumption.t) (st : State) :=
  {| driverStorage := driverStorage st;
     vehicleStorage := vehicleStorage st;
     bookingStorage := bookingStorage st;
     fuelConsumptionStorage := m;
     maintenanceStorage := maintenanceStorage st;
     emergencyAssistanceStorage := emergencyAssistanceStorage st;
     routeStorage := routeStorage st |}.

Definition with_maintenanceStorage
  (m : StableBTreeMap Maintenance.t) (st : State) :=
  {| driverStorage := driverStorage st;
     vehicleStorage := vehicleStorage st;
     bookingStorage := bookingStorage st;
     fuelConsumptionStorage := fuelConsumptionStorage st;
     maintenanceStorage := m;
     emergencyAssistanceStorage := emergencyAssistanceStorage st;
     routeStorage := routeStorage st |}.

Definition with_emergencyAssistanceStorage
  (m : StableBTreeMap EmergencyAssistance.t) (st : State) :=
  {| driverStorage := driverStorage st;
     vehicleStorage := vehicleStorage st;
     bookingStorage := bookingStorage st;
     fuelConsumptionStorage := fuelConsumptionStorage st;
     maintenanceStorage := maintenanceStorage st;
     emergencyAssistanceStorage := m;
     routeStorage := routeStorage st |}.

Definition with_routeStorage (m : StableBTreeMap Route.t) (st : State) :=
  {| driverStorage := driverStorage st;
     vehicleStorage := vehicleStorage st;
     bookingStorage := bookingStorage st;
     fuelConsumptionStorage := fuelConsumptionStorage st;
     maintenanceStorage := maintenanceStorage st;
     emergencyAssistanceStorage := emergencyAssistanceStorage st;
     routeStorage := m |}.

(** What a call answers with, whatever the handler. *)
Inductive Value :=
| VDriver (d : Driver.t)
| VDrivers (l : list Driver.t)
| VVehicle (v : Vehicle.t)
| VVehicles (l : list Vehicle.t)
| VBooking (b : Booking.t)
| VBookings (l : list Booking.t)
| VFuelConsumption (f : FuelConsumption.t)
| VFuelConsumptions (l : list FuelConsumption.t)
| VMaintenance (m : Maintenance.t)
| VMaintenances (l : list Maintenance.t)
| VEmergencyAssistance (e : EmergencyAssistance.t)
| VEmergencyAssistances (l : list EmergencyAssistance.t)
| VRoute (r : Route.t)
| VRoutes (l : list Route.t)
| VMessage (m : Message).

Definition answer {T : Type} (wrap : T -> Value) (r : Result T) : Result Value :=
  match r with
  | Ok v => Ok (wrap v)
  | Err m => Err m
  end.

Definition is_err {T : Type} (r : Result T) : bool :=
  match r with
  | Ok _ => false
  | Err _ => true
  end.

(** The two ways a handler is exposed.  An update returns its answer and
    the stores it leaves. *)
Definition update {T : Type} (wrap : T -> Value) (r : Result T * State)
  : Result Value * State :=
  (answer wrap (fst r), snd r).

(** A query answers from the stores and leaves them as they are. *)
Definition query {T : Type} (wrap : T -> Value) (r : Result T) (st : State)
  : Result Value * State :=
  (answer wrap r, st).

(** ** The first handler set *)

Module First.
Section Handlers.
Context `{Host}.

Definition createDriver (env : Env) (payload : DriverPayload.t) (st : State)
  : Result Driver.t * State :=
  if falsy (DriverPayload.name payload)
     || falsy (DriverPayload.license_number payload)
     || falsy (DriverPayload.contact_info payload)
  then (Err (InvalidPayload "Missing required fields"), st)
  else
    let driverId := uuidv4 env in
    let driver :=
      {| Driver.id := driverId;
         Driver.owner := caller env;
         Driver.name := DriverPayload.name payload;
         Driver.license_number := DriverPayload.license_number payload;
         Driver.contact_info := DriverPayload.contact_info payload;
         Driver.points := 0%N;
         Driver.created_at := time env |} in
    (Ok driver, with_driverStorage (insert driverId driver (driverStorage st)) st).

Definition getDrivers (st : State) : Result (list Driver.t) :=
  match values (driverStorage st) with
  | [] => Err (NotFound "No drivers found")
  | drivers => Ok drivers
  end.

Definition getDriverById (driverId : text) (st : State) : Result Driver.t :=
  if negb (validateId driverId) then Err (InvalidPayload "Invalid driver ID")
  else
    match get driverId (driverStorage st) with
    | None => Err (NotFound "Driver not found")
    | Some driver => Ok driver
    end.

Definition getDriverByPrincipal (env : Env) (st : State) : Result Driver.t :=
  match filter (fun driver => same_object (Driver.owner driver) (caller env))
               (values (driverStorage st)) with
  | [] => Err (NotFound "Driver not found")
  | driver :: _ => Ok driver
  end.

Definition deleteDriver (driverId : text) (st : State)
  : Result Message * State :=
  if negb (validateId driverId)
  then (Err (InvalidPayload "Invalid driver ID"), st)
  else
    match get driverId (driverStorage st) with
    | None => (Err (NotFound "Driver not found"), st)
    | Some _ =>
        (Ok (Success "Driver deleted successfully"),
         with_driverStorage (remove driverId (driverStorage st)) st)
    end.

Definition getDriverByLicenseNumber (licenseNumber : text) (st : State)
  : Result Driver.t :=
  match filter (fun driver => (Driver.license_number driver =? licenseNumber))
               (values (driverStorage st)) with
  | [] => Err (NotFound "Driver not found with this license number")
  | driver :: _ => Ok driver
  end.

Definition createVehicle (env : Env) (payload : VehiclePayload.t) (st : State)
  : Result Vehicle.t * State :=
  if falsy (VehiclePayload.registration_number payload)
     || falsy (VehiclePayload.model payload)
     || (VehiclePayload.capacity payload <=? 0)%N
     || falsy (VehiclePayload.location payload)
  then (Err (InvalidPayload "Missing or invalid vehicle data"), st)
  else
    let vehicleId := uuidv4 env in
    let vehicle :=
      {| Vehicle.id := vehicleId;
         Vehicle.registration_number := VehiclePayload.registration_number payload;
         Vehicle.model := VehiclePayload.model payload;
         Vehicle.capacity := VehiclePayload.capacity payload;
         Vehicle.status := VehicleStatus.Available;
         Vehicle.location := VehiclePayload.location payload;
         Vehicle.created_at := time env |} in
    (Ok vehicle,
     with_vehicleStorage (insert vehicleId vehicle (vehicleStorage st)) st).

Definition getVehicleById (vehicleId : text) (st : State) : Result Vehicle.t :=
  if negb (validateId vehicleId) then Err (InvalidPayload "Invalid vehicle ID")
  else
    match get vehicleId (vehicleStorage st) with
    | None => Err (NotFound "Vehicle not found")
    | Some vehicle => Ok vehicle
    end.

Definition getVehicleByRegistrationNumber (registrationNumber : text)
  (st : State) : Result Vehicle.t :=
  match filter (fun vehicle =>
                  (Vehicle.registration_number vehicle =? registrationNumber))
               (values (vehicleStorage st)) with
  | [] => Err (NotFound "Vehicle not found")
  | vehicle :: _ => Ok vehicle
  end.

Definition deleteVehicle (vehicleId : text) (st : State)
  : Result Message * State :=
  if negb (validateId vehicleId)
  then (Err (InvalidPayload "Invalid vehicle ID"), st)
  else
    match get vehicleId (vehicleStorage st) with
    | None => (Err (NotFound "Vehicle not found"), st)
    | Some _ =>
        (Ok (Success "Vehicle deleted successfully"),
         with_vehicleStorage (remove vehicleId (vehicleStorage st)) st)
    end.

(** [vehicle.status = status] on the decoded record, which is then
    inserted under the same key. *)
Definition set_status (vehicle : Vehicle.t) (status : VehicleStatus.t)
  : Vehicle.t :=
  {| Vehicle.id := Vehicle.id vehicle;
     Vehicle.registration_number := Vehicle.registration_number vehicle;
     Vehicle.model := Vehicle.model vehicle;
     Vehicle.capacity := Vehicle.capacity vehicle;
     Vehicle.status := status;
     Vehicle.location := Vehicle.location vehicle;
     Vehicle.created_at := Vehicle.created_at vehicle |}.

Definition updateVehicleStatus (vehicleId : text) (status : VehicleStatus.t)
  (st : State) : Result Message * State :=
  if negb (validateId vehicleId)
  then (Err (InvalidPayload "Invalid vehicle ID"), st)
  else
    match get vehicleId (vehicleStorage st) with
    | None => (Err (NotFound "Vehicle not found"), st)
    | Some vehicle =>
        (Ok (Success "Vehicle status updated successfully"),
         with_vehicleStorage
           (insert vehicleId (set_status vehicle status) (vehicleStorage st)) st)
    end.

Definition createBooking (env : Env) (payload : BookingPayload.t) (st : State)
  : Result Booking.t * State :=
  if falsy (BookingPayload.from_location payload)
     || falsy (BookingPayload.to_location payload)
     || (BookingPayload.start_time payload <=? time env)%N
  then (Err (InvalidPayload "Invalid booking data"), st)
  else
    match filter (fun vehicle =>
                    (Vehicle.id vehicle =? BookingPayload.vehicle_id payload))
                 (values (vehicleStorage st)) with
    | [] => (Err (NotFound "Vehicle not found"), st)
    | vehicle0 :: _ =>
        if strict_eq_primitive
             (Available_property (Vehicle.status vehicle0)) JsUndefined
        then (Err (Error "Vehicle is not available"), st)
        else
          match filter (fun driver =>
                          (Driver.id driver =? BookingPayload.driver_id payload))
                       (values (driverStorage st)) with
          | [] => (Err (NotFound "Driver not found"), st)
          | _ :: _ =>
              let bookingId := uuidv4 env in
              let booking :=
                {| Booking.id := bookingId;
                   Booking.vehicle_id := BookingPayload.vehicle_id payload;
                   Booking.driver_id := BookingPayload.driver_id payload;
                   Booking.from_location := BookingPayload.from_location payload;
                   Booking.to_location := BookingPayload.to_location payload;
                   Booking.start_time := BookingPayload.start_time payload;
                   Booking.end_time := BookingPayload.end_time payload;
                   Booking.status := "pending";
                   Booking.created_at := time env |} in
              (Ok booking,
               with_bookingStorage
                 (insert bookingId booking (bookingStorage st)) st)
          end
    end.

Definition getBookings (st : State) : Result (list Booking.t) :=
  match values (bookingStorage st) with
  | [] => Err (NotFound "No bookings found")
  | bookings => Ok bookings
  end.

Definition getBookingByVehicleId (vehicleId : text) (st : State)
  : Result (list Booking.t) :=
  match filter (fun booking => (Booking.vehicle_id booking =? vehicleId))
               (values (bookingStorage st)) with
  | [] => Err (NotFound "No bookings found for this vehicle")
  | bookings => Ok bookings
  end.

Definition recordFuelConsumption (env : Env)
  (payload : FuelConsumptionPayload.t) (st : State)
  : Result FuelConsumption.t * State :=
  if le_zero (parseFloat (FuelConsumptionPayload.amount payload))
  then (Err (InvalidPayload "Amount must be greater than zero"), st)
  else
    match get (FuelConsumptionPayload.vehicle_id payload) (vehicleStorage st) with
    | None => (Err (NotFound "Vehicle not found"), st)
    | Some _ =>
        let consumptionId := uuidv4 env in
        let fuelConsumption :=
          {| FuelConsumption.id := consumptionId;
             FuelConsumption.vehicle_id := FuelConsumptionPayload.vehicle_id payload;
             FuelConsumption.amount := FuelConsumptionPayload.amount payload;
             FuelConsumption.date := FuelConsumptionPayload.date payload |} in
        (Ok fuelConsumption,
         with_fuelConsumptionStorage
           (insert consumptionId fuelConsumption (fuelConsumptionStorage st)) st)
    end.

Definition scheduleMaintenance (env : Env) (payload : MaintenancePayload.t)
  (st : State) : Result Maintenance.t * State :=
  if falsy (MaintenancePayload.description payload)
     || (MaintenancePayload.scheduled_date payload <=? time env)%N
  then (Err (InvalidPayload "Invalid maintenance data"), st)
  else
    match get (MaintenancePayload.vehicle_id payload) (vehicleStorage st) with
    | None => (Err (NotFound "Vehicle not found"), st)
    | Some _ =>
        let maintenanceId := uuidv4 env in
        let maintenance :=
          {| Maintenance.id := maintenanceId;
             Maintenance.vehicle_id := MaintenancePayload.vehicle_id payload;
             Maintenance.description := MaintenancePayload.description payload;
             Maintenance.scheduled_date := MaintenancePayload.scheduled_date payload;
             Maintenance.status := "pending";
             Maintenance.created_at := time env |} in
        (Ok maintenance,
         with_maintenanceStorage
           (insert maintenanceId maintenance (maintenanceStorage st)) st)
    end.

Definition requestEmergencyAssistance (env : Env)
  (payload : EmergencyAssistancePayload.t) (st : State)
  : Result EmergencyAssistance.t * State :=
  if falsy (EmergencyAssistancePayload.description payload)
     || falsy (EmergencyAssistancePayload.location payload)
  then (Err (InvalidPayload "Invalid emergency assistance data"), st)
  else
    match get (EmergencyAssistancePayload.vehicle_id payload)
              (vehicleStorage st) with
    | None => (Err (NotFound "Vehicle not found"), st)
    | Some _ =>
        let assistanceId := uuidv4 env in
        let emergencyAssistance :=
          {| EmergencyAssistance.id := assistanceId;
             EmergencyAssistance.vehicle_id :=
               EmergencyAssistancePayload.vehicle_id payload;
             EmergencyAssistance.description :=
               EmergencyAssistancePayload.description payload;
             EmergencyAssistance.location :=
               EmergencyAssistancePayload.location payload;
             EmergencyAssistance.status := "pending";
             EmergencyAssistance.created_at := time env |} in
        (Ok emergencyAssistance,
         with_emergencyAssistanceStorage
           (insert assistanceId emergencyAssistance
                   (emergencyAssistanceStorage st)) st)
    end.

Definition getEmergencyAssistances (st : State)
  : Result (list EmergencyAssistance.t) :=
  match values (emergencyAssistanceStorage st) with
  | [] => Err (NotFound "No emergency assistance records found")
  | records => Ok records
  end.

Definition createRoute (env : Env) (payload : RoutePayload.t) (st : State)
  : Result Route.t * State :=
  if falsy (RoutePayload.from_location payload)
     || falsy (RoutePayload.to_location payload)
  then (Err (InvalidPayload "Invalid route data"), st)
  else
    let routeId := uuidv4 env in
    let route :=
      {| Route.id := routeId;
         Route.from_location := RoutePayload.from_location payload;
         Route.to_location := RoutePayload.to_location payload;
         Route.optimized_route :=
           "Optimized route from " ++ RoutePayload.from_location payload
           ++ " to " ++ RoutePayload.to_location payload;
         Route.distance := "100km";
         Route.time_estimate := 3600%N |} in
    (Ok route, with_routeStorage (insert routeId route (routeStorage st)) st).

Definition getRoutes (st : State) : Result (list Route.t) :=
  match values (routeStorage st) with
  | [] => Err (NotFound "No routes found")
  | routes => Ok routes
  end.

End Handlers.

(** The calls the canister exposes. *)
Inductive Op :=
| CreateDriver (payload : DriverPayload.t)
| GetDrivers
| GetDriverById (driverId : text)
| GetDriverByPrincipal
| DeleteDriver (driverId : text)
| GetDriverByLicenseNumber (licenseNumber : text)
| CreateVehicle (payload : VehiclePayload.t)
| GetVehicleById (vehicleId : text)
| GetVehicleByRegistrationNumber (registrationNumber : text)
| DeleteVehicle (vehicleId : text)
| UpdateVehicleStatus (vehicleId : text) (status : VehicleStatus.t)
| CreateBooking (payload : BookingPayload.t)
| GetBookings
| GetBookingByVehicleId (vehicleId : text)
| RecordFuelConsumption (payload : FuelConsumptionPayload.t)
| ScheduleMaintenance (payload : MaintenancePayload.t)
| RequestEmergencyAssistance (payload : EmergencyAssistancePayload.t)
| GetEmergencyAssistances
| CreateRoute (payload : RoutePayload.t)
| GetRoutes.

Definition run `{Host} (env : Env) (op : Op) (st : State)
  : Result Value * State :=
  match op with
  | CreateDriver p => update VDriver (createDriver env p st)
  | GetDrivers => query VDrivers (getDrivers st) st
  | GetDriverById i => query VDriver (getDriverById i st) st
  | GetDriverByPrincipal => query VDriver (getDriverByPrincipal env st) st
  | DeleteDriver i => update VMessage (deleteDriver i st)
  | GetDriverByLicenseNumber l =>
      query VDriver (getDriverByLicenseNumber l st) st
  | CreateVehicle p => update VVehicle (createVehicle env p st)
  | GetVehicleById i => query VVehicle (getVehicleById i st) st
  | GetVehicleByRegistrationNumber r =>
      query VVehicle (getVehicleByRegistrationNumber r st) st
  | DeleteVehicle i => update VMessage (deleteVehicle i st)
  | UpdateVehicleStatus i s => update VMessage (updateVehicleStatus i s st)
  | CreateBooking p => update VBooking (createBooking env p st)
  | GetBookings => query VBookings (getBookings st) st
  | GetBookingByVehicleId i =>
      query VBookings (getBookingByVehicleId i st) st
  | RecordFuelConsumption p =>
      update VFuelConsumption (recordFuelConsumption env p st)
  | ScheduleMaintenance p => update VMaintenance (scheduleMaintenance env p st)
  | RequestEmergencyAssistance p =>
      update VEmergencyAssistance (requestEmergencyAssistance env p st)
  | GetEmergencyAssistances =>
      query VEmergencyAssistances (getEmergencyAssistances st) st
  | CreateRoute p => update VRoute (createRoute env p st)
  | GetRoutes => query VRoutes (getRoutes st) st
  end.

End First.

(** ** The second handler set *)

Module Second.
Section Handlers.
Context `{Host}.

Definition createDriver (env : Env) (payload : DriverPayload.t) (st : State)
  : Result Driver.t * State :=
  if falsy (DriverPayload.name payload)
     || falsy (DriverPayload.license_number payload)
     || falsy (DriverPayload.contact_info payload)
  then (Err (InvalidPayload "Missing required fields"), st)
  else
    let driverId := uuidv4 env in
    let driver :=
      {| Driver.id := driverId;
         Driver.owner := caller env;
         Driver.name := DriverPayload.name payload;
         Driver.license_number := DriverPayload.license_number payload;
         Driver.contact_info := DriverPayload.contact_info payload;
         Driver.points := 0%N;
         Driver.created_at := time env |} in
    (Ok driver, with_driverStorage (insert driverId driver (driverStorage st)) st).

Definition getDrivers (st : State) : Result (list Driver.t) :=
  match values (driverStorage st) with
  | [] => Err (NotFound "No drivers found")
  | drivers => Ok drivers
  end.

Definition getDriverById (driverId : text) (st : State) : Result Driver.t :=
  match get driverId (driverStorage st) with
  | None => Err (NotFound "Driver not found")
  | Some driver => Ok driver
  end.

Definition getDriverByPrincipal (env : Env) (st : State) : Result Driver.t :=
  match filter (fun driver => same_object (Driver.owner driver) (caller env))
               (values (driverStorage st)) with
  | [] => Err (NotFound "Driver not found")
  | driver :: _ => Ok driver
  end.

(** [!payload.capacity]: of the nat64 values only zero is falsy. *)
Definition createVehicle (env : Env) (payload : VehiclePayload.t) (st : State)
  : Result Vehicle.t * State :=
  if falsy (VehiclePayload.registration_number payload)
     || falsy (VehiclePayload.model payload)
     || (VehiclePayload.capacity payload =? 0)%N
     || falsy (VehiclePayload.location payload)
  then (Err (InvalidPayload "Missing required fields"), st)
  else
    let vehicleId := uuidv4 env in
    let vehicle :=
      {| Vehicle.id := vehicleId;
         Vehicle.registration_number := VehiclePayload.registration_number payload;
         Vehicle.model := VehiclePayload.model payload;
         Vehicle.capacity := VehiclePayload.capacity payload;
         Vehicle.status := VehicleStatus.Available;
         Vehicle.location := VehiclePayload.location payload;
         Vehicle.created_at := time env |} in
    (Ok vehicle,
     with_vehicleStorage (insert vehicleId vehicle (vehicleStorage st)) st).

Definition getVehicleById (vehicleId : text) (st : State) : Result Vehicle.t :=
  match get vehicleId (vehicleStorage st) with
  | None => Err (NotFound "Vehicle not found")
  | Some vehicle => Ok vehicle
  end.

Definition getVehicleByRegistrationNumber (registrationNumber : text)
  (st : State) : Result Vehicle.t :=
  match filter (fun vehicle =>
                  (Vehicle.registration_number vehicle =? registrationNumber))
               (values (vehicleStorage st)) with
  | [] => Err (NotFound "Vehicle not found")
  | vehicle :: _ => Ok vehicle
  end.

Definition getVehicleByModel (model : text) (st : State)
  : Result (list Vehicle.t) :=
  match filter (fun vehicle => (Vehicle.model vehicle =? model))
               (values (vehicleStorage st)) with
  | [] => Err (NotFound "Vehicle not found")
  | vehicles => Ok vehicles
  end.

Definition getVehicles (st : State) : Result (list Vehicle.t) :=
  match values (vehicleStorage st) with
  | [] => Err (NotFound "No vehicles found")
  | vehicles => Ok vehicles
  end.

(** The availability check compares the stored variant object with the
    string ["Available"] by [!==]. *)
Definition createBooking (env : Env) (payload : BookingPayload.t) (st : State)
  : Result Booking.t * State :=
  if falsy (BookingPayload.from_location payload)
     || falsy (BookingPayload.to_location payload)
     || (BookingPayload.start_time payload <=? time env)%N
  then (Err (InvalidPayload "Invalid booking data"), st)
  else
    match filter (fun vehicle =>
                    (Vehicle.id vehicle =? BookingPayload.vehicle_id payload))
                 (values (vehicleStorage st)) with
    | [] => (Err (NotFound "Vehicle not found"), st)
    | vehicle0 :: _ =>
        if negb (strict_eq_primitive
                   (JsVariant (Vehicle.status vehicle0)) (JsString "Available"))
        then (Err (Error "Vehicle is not available"), st)
        else
          match filter (fun driver =>
                          (Driver.id driver =? BookingPayload.driver_id payload))
                       (values (driverStorage st)) with
          | [] => (Err (NotFound "Driver not found"), st)
          | _ :: _ =>
              let bookingId := uuidv4 env in
              let booking :=
                {| Booking.id := bookingId;
                   Booking.vehicle_id := BookingPayload.vehicle_id payload;
                   Booking.driver_id := BookingPayload.driver_id payload;
                   Booking.from_location := BookingPayload.from_location payload;
                   Booking.to_location := BookingPayload.to_location payload;
                   Booking.start_time := BookingPayload.start_time payload;
                   Booking.end_time := BookingPayload.end_time payload;
                   Booking.status := "pending";
                   Booking.created_at := time env |} in
              (Ok booking,
               with_bookingStorage
                 (insert bookingId booking (bookingStorage st)) st)
          end
    end.

Definition getBookings (st : State) : Result (list Booking.t) :=
  match values (bookingStorage st) with
  | [] => Err (NotFound "No bookings found")
  | bookings => Ok bookings
  end.

Definition getBookingById (bookingId : text) (st : State) : Result Booking.t :=
  match get bookingId (bookingStorage st) with
  | None => Err (NotFound "Booking not found")
  | Some booking => Ok booking
  end.

Definition getBookingByVehicleId (vehicleId : text) (st : State)
  : Result (list Booking.t) :=
  match filter (fun booking => (Booking.vehicle_id booking =? vehicleId))
               (values (bookingStorage st)) with
  | [] => Err (NotFound "No bookings found")
  | bookings => Ok bookings
  end.

Definition getBookingByDriverId (driverId : text) (st : State)
  : Result (list Booking.t) :=
  match filter (fun booking => (Booking.driver_id booking =? driverId))
               (values (bookingStorage st)) with
  | [] => Err (NotFound "No bookings found")
  | bookings => Ok bookings
  end.

Definition recordFuelConsumption (env : Env)
  (payload : FuelConsumptionPayload.t) (st : State)
  : Result FuelConsumption.t * State :=
  if le_zero (parseFloat (FuelConsumptionPayload.amount payload))
  then (Err (InvalidPayload "Amount must be greater than zero"), st)
  else
    match filter (fun vehicle =>
                    (Vehicle.id vehicle =? FuelConsumptionPayload.vehicle_id payload))
                 (values (vehicleStorage st)) with
    | [] => (Err (NotFound "Vehicle not found"), st)
    | _ :: _ =>
        let consumptionId := uuidv4 env in
        let fuelConsumption :=
          {| FuelConsumption.id := consumptionId;
             FuelConsumption.vehicle_id := FuelConsumptionPayload.vehicle_id payload;
             FuelConsumption.amount := FuelConsumptionPayload.amount payload;
             FuelConsumption.date := FuelConsumptionPayload.date payload |} in
        (Ok fuelConsumption,
         with_fuelConsumptionStorage
           (insert consumptionId fuelConsumption (fuelConsumptionStorage st)) st)
    end.

Definition getFuelConsumptions (st : State)
  : Result (list FuelConsumption.t) :=
  match values (fuelConsumptionStorage st) with
  | [] => Err (NotFound "No fuel consumption records found")
  | records => Ok records
  end.

Definition scheduleMaintenance (env : Env) (payload : MaintenancePayload.t)
  (st : State) : Result Maintenance.t * State :=
  if falsy (MaintenancePayload.description payload)
     || (MaintenancePayload.scheduled_date payload <=? time env)%N
  then (Err (InvalidPayload "Invalid maintenance data"), st)
  else
    match filter (fun vehicle =>
                    (Vehicle.id vehicle =? MaintenancePayload.vehicle_id payload))
                 (values (vehicleStorage st)) with
    | [] => (Err (NotFound "Vehicle not found"), st)
    | _ :: _ =>
        let maintenanceId := uuidv4 env in
        let maintenance :=
          {| Maintenance.id := maintenanceId;
             Maintenance.vehicle_id := MaintenancePayload.vehicle_id payload;
             Maintenance.description := MaintenancePayload.description payload;
             Maintenance.scheduled_date := MaintenancePayload.scheduled_date payload;
             Maintenance.status := "pending";
             Maintenance.created_at := time env |} in
        (Ok maintenance,
         with_maintenanceStorage
           (insert maintenanceId maintenance (maintenanceStorage st)) st)
    end.

Definition getMaintenances (st : State) : Result (list Maintenance.t) :=
  match values (maintenanceStorage st) with
  | [] => Err (NotFound "No maintenance records found")
  | records => Ok records
  end.

Definition requestEmergencyAssistance (env : Env)
  (payload : EmergencyAssistancePayload.t) (st : State)
  : Result EmergencyAssistance.t * State :=
  if falsy (EmergencyAssistancePayload.description payload)
     || falsy (EmergencyAssistancePayload.location payload)
  then (Err (InvalidPayload "Invalid emergency assistance data"), st)
  else
    match filter (fun vehicle =>
                    (Vehicle.id vehicle
                     =? EmergencyAssistancePayload.vehicle_id payload))
                 (values (vehicleStorage st)) with
    | [] => (Err (NotFound "Vehicle not found"), st)
    | _ :: _ =>
        let assistanceId := uuidv4 env in
        let emergencyAssistance :=
          {| EmergencyAssistance.id := assistanceId;
             EmergencyAssistance.vehicle_id :=
               EmergencyAssistancePayload.vehicle_id payload;
             EmergencyAssistance.description :=
               EmergencyAssistancePayload.description payload;
             EmergencyAssistance.location :=
               EmergencyAssistancePayload.location payload;
             EmergencyAssistance.status := "pending";
             EmergencyAssistance.created_at := time env |} in
        (Ok emergencyAssistance,
         with_emergencyAssistanceStorage
           (insert assistanceId emergencyAssistance
                   (emergencyAssistanceStorage st)) st)
    end.

Definition getEmergencyAssistances (st : State)
  : Result (list EmergencyAssistance.t) :=
  match values (emergencyAssistanceStorage st) with
  | [] => Err (NotFound "No emergency assistance records found")
  | records => Ok records
  end.

Definition createRoute (env : Env) (payload : RoutePayload.t) (st : State)
  : Result Route.t * State :=
  if falsy (RoutePayload.from_location payload)
     || falsy (RoutePayload.to_location payload)
  then (Err (InvalidPayload "Invalid route data"), st)
  else
    let routeId := uuidv4 env in
    let route :=
      {| Route.id := routeId;
         Route.from_location := RoutePayload.from_location payload;
         Route.to_location := RoutePayload.to_location payload;
         Route.optimized_route :=
           "Optimized route from " ++ RoutePayload.from_location payload
           ++ " to " ++ RoutePayload.to_location payload;
         Route.distance := "100km";
         Route.time_estimate := 3600%N |} in
    (Ok route, with_routeStorage (insert routeId route (routeStorage st)) st).

Definition getRoutes (st : State) : Result (list Route.t) :=
  match values (routeStorage st) with
  | [] => Err (NotFound "No routes found")
  | routes => Ok routes
  end.

Definition getRouteById (routeId : text) (st : State) : Result Route.t :=
  match get routeId (routeStorage st) with
  | None => Err (NotFound "Route not found")
  | Some route => Ok route
  end.

End Handlers.

Inductive Op :=
| CreateDriver (payload : DriverPayload.t)
| GetDrivers
| GetDriverById (driverId : text)
| GetDriverByPrincipal
| CreateVehicle (payload : VehiclePayload.t)
| GetVehicleById (vehicleId : text)
| GetVehicleByRegistrationNumber (registrationNumber : text)
| GetVehicleByModel (model : text)
| GetVehicles
| CreateBooking (payload : BookingPayload.t)
| GetBookings
| GetBookingById (bookingId : text)
| GetBookingByVehicleId (vehicleId : text)
| GetBookingByDriverId (driverId : text)
| RecordFuelConsumption (payload : FuelConsumptionPayload.t)
| GetFuelConsumptions
| ScheduleMaintenance (payload : MaintenancePayload.t)
| GetMaintenances
| RequestEmergencyAssistance (payload : EmergencyAssistancePayload.t)
| GetEmergencyAssistances
| CreateRoute (payload : RoutePayload.t)
| GetRoutes
| GetRouteById (routeId : text).

Definition run `{Host} (env : Env) (op : Op) (st : State)
  : Result Value * State :=
  match op with
  | CreateDriver p => update VDriver (createDriver env p st)
  | GetDrivers => query VDrivers (getDrivers st) st
  | GetDriverById i => query VDriver (getDriverById i st) st
  | GetDriverByPrincipal => query VDriver (getDriverByPrincipal env st) st
  | CreateVehicle p => update VVehicle (createVehicle env p st)
  | GetVehicleById i => query VVehicle (getVehicleById i st) st
  | GetVehicleByRegistrationNumber r =>
      query VVehicle (getVehicleByRegistrationNumber r st) st
  | GetVehicleByModel m => query VVehicles (getVehicleByModel m st) st
  | GetVehicles => query VVehicles (getVehicles st) st
  | CreateBooking p => update VBooking (createBooking env p st)
  | GetBookings => query VBookings (getBookings st) st
  | GetBookingById i => query VBooking (getBookingById i st) st
  | GetBookingByVehicleId i =>
      query VBookings (getBookingByVehicleId i st) st
  | GetBookingByDriverId i => query VBookings (getBookingByDriverId i st) st
  | RecordFuelConsumption p =>
      update VFuelConsumption (recordFuelConsumption env p st)
  | GetFuelConsumptions =>
      query VFuelConsumptions (getFuelConsumptions st) st
  | ScheduleMaintenance p => update VMaintenance (scheduleMaintenance env p st)
  | GetMaintenances => query VMaintenances (getMaintenances st) st
  | RequestEmergencyAssistance p =>
      update VEmergencyAssistance (requestEmergencyAssistance env p st)
  | GetEmergencyAssistances =>
      query VEmergencyAssistances (getEmergencyAssistances st) st
  | CreateRoute p => update VRoute (createRoute env p st)
  | GetRoutes => query VRoutes (getRoutes st) st
  | GetRouteById i => query VRoute (getRouteById i st) st
  end.

End Second.

(** ** Calls on either handler set *)

Inductive Call :=
| OnFirst (op : First.Op)
| OnSecond (op : Second.Op).

Definition exec `{Host} (env : Env) (c : Call) (st : State)
  : Result Value * State :=
  match c with
  | OnFirst op => First.run env op st
  | OnSecond op => Second.run env op st
  end.

(** The calls whose handler writes to the vehicle store. *)
Definition writes_vehicles (c : Call) : bool :=
  match c with
  | OnFirst (First.CreateVehicle _) => true
  | OnFirst (First.DeleteVehicle _) => true
  | OnFirst (First.UpdateVehicleStatus _ _) => true
  | OnSecond (Second.CreateVehicle _) => true
  | _ => false
  end.

(** Every record of a store sits under its own identifier, as the create
    handlers insert it. *)
Definition keyed {V : Type} (idf : V -> text) (m : StableBTreeMap V) : Prop :=
  Forall (fun kv => idf (snd kv) = fst kv) m.

Definition well_keyed (st : State) : Prop :=
  keyed Driver.id (driverStorage st)
  /\ keyed Vehicle.id (vehicleStorage st)
  /\ keyed Booking.id (bookingStorage st)
  /\ keyed FuelConsumption.id (fuelConsumptionStorage st)
  /\ keyed Maintenance.id (maintenanceStorage st)
  /\ keyed EmergencyAssistance.id (emergencyAssistanceStorage st)
  /\ keyed Route.id (routeStorage st).

(** The stores after a sequence of calls, each with its own environment. *)
Fixpoint exec_all `{Host} (calls : list (Env * Call)) (st : State) : State :=
  match calls with
  | [] => st
  | (env, c) :: rest => exec_all rest (snd (exec env c st))
  end.

(** Byte-wise order on keys, for running the handlers on concrete stores. *)
Fixpoint bytes_lt (a b : text) : bool :=
  match a, b with
  | _, EmptyString => false
  | EmptyString, String _ _ => true
  | String x a', String y b' =>
      if (code x <? code y)%N then true
      else if (code x =? code y)%N then bytes_lt a' b'
      else false
  end.

Definition sample_host : Host :=
  {| key_lt := bytes_lt; same_object := fun _ _ => false |}.

(** ** Selecting from a scan *)

(** [selects P l out]: [out] is [l] with the records that do not satisfy
    [P] left out, the others in the order they had. *)
Inductive selects {V : Type} (P : V -> Prop) : list V -> list V -> Prop :=
| selects_nil : selects P [] []
| selects_keep x l out : P x -> selects P l out -> selects P (x :: l) (x :: out)
| selects_skip x l out : ~ P x -> selects P l out -> selects P (x :: l) out.

(** ** A small fleet

    One vehicle and one driver, created through the handlers; the same
    fleet with the vehicle sent to maintenance; and a store with two
    drivers who gave the same licence number. *)

Definition sample_env (now : N) (id : text) : Env :=
  {| caller := "2vxsx-fae"; time := now; uuidv4 := id |}.

Definition depot_van : VehiclePayload.t :=
  {| VehiclePayload.registration_number := "ABC-1";
     VehiclePayload.model := "Van";
     VehiclePayload.capacity := 4;
     VehiclePayload.location := "Depot" |}.

Definition ada : DriverPayload.t :=
  {| DriverPayload.name := "Ada";
     DriverPayload.license_number := "KBA-123";
     DriverPayload.contact_info := "ada@fleet.example" |}.

Definition bob : DriverPayload.t :=
  {| DriverPayload.name := "Bob";
     DriverPayload.license_number := "KBA-123";
     DriverPayload.contact_info := "bob@fleet.example" |}.

Definition fleet : State :=
  @exec_all sample_host
    [ (sample_env 10 "v-1", OnFirst (First.CreateVehicle depot_van));
      (sample_env 11 "d-1", OnFirst (First.CreateDriver ada)) ]
    empty_state.

Definition fleet_in_maintenance : State :=
  @exec_all sample_host
    [ (sample_env 12 "",
       OnFirst (First.UpdateVehicleStatus "v-1" VehicleStatus.Maintenance)) ]
    fleet.

Definition two_drivers : State :=
  @exec_all sample_host
    [ (sample_env 10 "d-1", OnSecond (Second.CreateDriver ada));
      (sample_env 11 "d-2", OnSecond (Second.CreateDriver bob)) ]
    empty_state.

Definition stored_van : Vehicle.t :=
  {| Vehicle.id := "v-1";
     Vehicle.registration_number := "ABC-1";
     Vehicle.model := "Van";
     Vehicle.capacity := 4;
     Vehicle.status := VehicleStatus.Available;
     Vehicle.location := "Depot";
     Vehicle.created_at := 10 |}.

Definition stored_ada (id : text) (at_time : N) : Driver.t :=
  {| Driver.id := id;
     Driver.owner := "2vxsx-fae";
     Driver.name := "Ada";
     Driver.license_number := "KBA-123";
     Driver.contact_info := "ada@fleet.example";
     Driver.points := 0;
     Driver.created_at := at_time |}.

Definition stored_bob : Driver.t :=
  {| Driver.id := "d-2";
     Driver.owner := "2vxsx-fae";
     Driver.name := "Bob";
     Driver.license_number := "KBA-123";
     Driver.contact_info := "bob@fleet.example";
     Driver.points := 0;
     Driver.created_at := 11 |}.

(** A trip from the depot, to start 1000 after the call. *)
Definition trip (vehicle_id driver_id : text) (now : N) : BookingPayload.t :=
  {| BookingPayload.vehicle_id := vehicle_id;
     BookingPayload.driver_id := driver_id;
     BookingPayload.from_location := "Depot";
     BookingPayload.to_location := "Harbour";
     BookingPayload.start_time := now + 1000;
     BookingPayload.end_time := now + 2000 |}.

Definition fuel (vehicle_id amount : text) : FuelConsumptionPayload.t :=
  {| FuelConsumptionPayload.vehicle_id := vehicle_id;
     FuelConsumptionPayload.amount := amount;
     FuelConsumptionPayload.date := 20 |}.

(** The fleet after the van was booked for a trip, and more payloads. *)
Definition fleet_booked : State :=
  @exec_all sample_host
    [ (sample_env 30 "b-1", OnFirst (First.CreateBooking (trip "v-1" "d-1" 30))) ]
    fleet.

Definition booked_trip : Booking.t :=
  {| Booking.id := "b-1";
     Booking.vehicle_id := "v-1";
     Booking.driver_id := "d-1";
     Booking.from_location := "Depot";
     Booking.to_location := "Harbour";
     Booking.start_time := 1030;
     Booking.end_time := 2030;
     Booking.status := "pending";
     Booking.created_at := 30 |}.

Definition second_set_calls : list (Env * Call) :=
  [ (sample_env 10 "v-1", OnSecond (Second.CreateVehicle depot_van));
    (sample_env 11 "d-1", OnSecond (Second.CreateDriver ada));
    (sample_env 30 "b-1", OnSecond (Second.CreateBooking (trip "v-1" "d-1" 30))) ].

Definition oil_change : MaintenancePayload.t :=
  {| MaintenancePayload.vehicle_id := "v-1";
     MaintenancePayload.description := "Oil change";
     MaintenancePayload.scheduled_date := 500 |}.

Definition flat_tyre : EmergencyAssistancePayload.t :=
  {| EmergencyAssistancePayload.vehicle_id := "v-1";
     EmergencyAssistancePayload.description := "Flat tyre";
     EmergencyAssistancePayload.location := "Ring road" |}.

Definition harbour_run : RoutePayload.t :=
  {| RoutePayload.from_location := "Depot";
     RoutePayload.to_location := "Harbour" |}.

(** What a filter handler that answers with a sequence is to return for
    the scan [l]: every record that satisfies [P], in scan order, and
    NotFound when there is none. *)
Definition lists_all {V : Type} (P : V -> Prop) (l : list V)
  (r : Result (list V)) : Prop :=
  match r with
  | Ok out => out <> [] /\ selects P l out
  | Err (NotFound _) => forall x, In x l -> ~ P x
  | Err _ => False
  end.

(** What a filter handler that answers with one record returns: the first
    record of the scan that satisfies [P], and NotFound when there is
    none. *)
Definition gives_first {V : Type} (P : V -> Prop) (l : list V)
  (r : Result V) : Prop :=
  match r with
  | Ok x =>
      exists before after,
        l = (before ++ x :: after)%list /\ P x
        /\ (forall y, In y before -> ~ P y)
  | Err (NotFound _) => forall x, In x l -> ~ P x
  | Err _ => False
  end.

(** The fields a create handler checks before it touches a store. *)
Definition lacks_checked_field (env : Env) (c : Call) : Prop :=
  match c with
  | OnFirst (First.CreateDriver p) | OnSecond (Second.CreateDriver p) =>
      DriverPayload.name p = ""
      \/ DriverPayload.license_number p = ""
      \/ DriverPayload.contact_info p = ""
  | OnFirst (First.CreateVehicle p) | OnSecond (Second.CreateVehicle p) =>
      VehiclePayload.registration_number p = ""
      \/ VehiclePayload.model p = ""
      \/ VehiclePayload.capacity p = 0%N
      \/ VehiclePayload.location p = ""
  | OnFirst (First.CreateBooking p) | OnSecond (Second.CreateBooking p) =>
      BookingPayload.from_location p = ""
      \/ BookingPayload.to_location p = ""
      \/ (BookingPayload.start_time p <= time env)%N
  | OnFirst (First.RecordFuelConsumption p)
  | OnSecond (Second.RecordFuelConsumption p) =>
      le_zero (parseFloat (FuelConsumptionPayload.amount p)) = true
  | OnFirst (First.ScheduleMaintenance p)
  | OnSecond (Second.ScheduleMaintenance p) =>
      MaintenancePayload.description p = ""
      \/ (MaintenancePayload.scheduled_date p <= time env)%N
  | OnFirst (First.RequestEmergencyAssistance p)
  | OnSecond (Second.RequestEmergencyAssistance p) =>
      EmergencyAssistancePayload.description p = ""
      \/ EmergencyAssistancePayload.location p = ""
  | OnFirst (First.CreateRoute p) | OnSecond (Second.CreateRoute p) =>
      RoutePayload.from_location p = "" \/ RoutePayload.to_location p = ""
  | _ => False
  end.

(** ** The stores by name *)

Inductive Store :=
| Drivers
| Vehicles
| Bookings
| FuelConsumptions
| Maintenances
| EmergencyAssistances
| Routes.

(** The store the handler of a call inserts into or removes from; the
    queries have none. *)
Definition written (c : Call) : option Store :=
  match c with
  | OnFirst (First.CreateDriver _) | OnFirst (First.DeleteDriver _)
  | OnSecond (Second.CreateDriver _) => Some Drivers
  | OnFirst (First.CreateVehicle _) | OnFirst (First.DeleteVehicle _)
  | OnFirst (First.UpdateVehicleStatus _ _)
  | OnSecond (Second.CreateVehicle _) => Some Vehicles
  | OnFirst (First.CreateBooking _) | OnSecond (Second.CreateBooking _) =>
      Some Bookings
  | OnFirst (First.RecordFuelConsumption _)
  | OnSecond (Second.RecordFuelConsumption _) => Some FuelConsumptions
  | OnFirst (First.ScheduleMaintenance _)
  | OnSecond (Second.ScheduleMaintenance _) => Some Maintenances
  | OnFirst (First.RequestEmergencyAssistance _)
  | OnSecond (Second.RequestEmergencyAssistance _) => Some EmergencyAssistances
  | OnFirst (First.CreateRoute _) | OnSecond (Second.CreateRoute _) =>
      Some Routes
  | _ => None
  end.

Definition keys {V : Type} (m : StableBTreeMap V) : list text :=
  map fst m.

(** No store holds two entries under one key. *)
Definition unique_keys (st : State) : Prop :=
  NoDup (keys (driverStorage st))
  /\ NoDup (keys (vehicleStorage st))
  /\ NoDup (keys (bookingStorage st))
  /\ NoDup (keys (fuelConsumptionStorage st))
  /\ NoDup (keys (maintenanceStorage st))
  /\ NoDup (keys (emergencyAssistanceStorage st))
  /\ NoDup (keys (routeStorage st)).

(** Calls that all go to the second handler set. *)
Definition on_second (calls : list (Env * Call)) : Prop :=
  Forall (fun ec => match snd ec with OnSecond _ => True | OnFirst _ => False end)
         calls.


(** * Properties *)

Open Scope list_scope.

(** ** Text and numbers *)

Lemma falsy_true (s : text) : falsy s = true <-> s = "".
Proof. destruct s; simpl; split; congruence. Qed.

Lemma falsy_false (s : text) : falsy s = false <-> s <> "".
Proof. destruct s; simpl; split; congruence. Qed.

(** Turns the byte tests among the hypotheses into facts about numbers. *)
Ltac byte_facts :=
  repeat match goal with
         | Hx : (_ || _)%bool = true |- _ => apply orb_prop in Hx as [Hx|Hx]
         | Hx : (_ && _)%bool = true |- _ =>
             let H1 := fresh in apply andb_prop in Hx as [Hx H1]
         | Hx : (_ =? _)%N = true |- _ => apply N.eqb_eq in Hx
         | Hx : (_ <=? _)%N = true |- _ => apply N.leb_le in Hx
         end.

Lemma ws1_not_lead2 (a b : ascii) : ws2 a b = true -> ws1 a = false.
Proof.
  intros Hab. destruct (ws1 a) eqn:E; [exfalso|reflexivity].
  unfold ws1, ws2 in *. byte_facts; lia.
Qed.

Lemma ws1_not_lead3 (a b c : ascii) : ws3 a b c = true -> ws1 a = false.
Proof.
  intros Habc. destruct (ws1 a) eqn:E; [exfalso|reflexivity].
  unfold ws1, ws3 in *. cbv zeta in Habc. byte_facts; lia.
Qed.

Lemma ws2_not_lead3 (a b c : ascii) : ws3 a b c = true -> ws2 a b = false.
Proof.
  intros Habc. destruct (ws2 a b) eqn:E; [exfalso|reflexivity].
  unfold ws2, ws3 in *. cbv zeta in Habc. byte_facts; lia.
Qed.

Lemma trimStart_blank (s : text) : blank s -> trimStart s = "".
Proof.
  induction 1 as [|a s Ha _ IH|a b s Hab _ IH|a b c s Habc _ IH].
  - reflexivity.
  - simpl. now rewrite Ha.
  - simpl. now rewrite (ws1_not_lead2 a b Hab), Hab.
  - simpl.
    now rewrite (ws1_not_lead3 a b c Habc), (ws2_not_lead3 a b c Habc), Habc.
Qed.

(** The identifiers [validateId] turns down are the empty text and the
    texts that start with white space and hold nothing else. *)
Lemma validateId_blank (s : text) : blank s -> validateId s = false.
Proof.
  intros Hb. unfold validateId. rewrite (trimStart_blank s Hb).
  simpl. now rewrite andb_false_r.
Qed.

Lemma trimStart_empty_blank (s : text) : trimStart s = "" -> blank s.
Proof.
  remember (String.length s) as n eqn:Hn.
  revert s Hn. induction n as [n IH] using lt_wf_ind. intros s Hn Ht.
  destruct s as [|a r1]; [constructor|].
  simpl in Ht. destruct (ws1 a) eqn:E1.
  { apply blank_1; [assumption|].
    apply (IH (String.length r1)); [subst; simpl; lia|reflexivity|assumption]. }
  destruct r1 as [|b r2]; [discriminate|].
  destruct (ws2 a b) eqn:E2.
  { apply blank_2; [assumption|].
    apply (IH (String.length r2)); [subst; simpl; lia|reflexivity|assumption]. }
  destruct r2 as [|c r3]; [discriminate|].
  destruct (ws3 a b c) eqn:E3; [|discriminate].
  apply blank_3; [assumption|].
  apply (IH (String.length r3)); [subst; simpl; lia|reflexivity|assumption].
Qed.

Lemma validateId_false_iff (s : text) : validateId s = false <-> blank s.
Proof.
  split; [|apply validateId_blank].
  unfold validateId. intros Hv. apply trimStart_empty_blank.
  destruct s as [|a r]; [reflexivity|].
  simpl in Hv. apply negb_false_iff in Hv. now apply falsy_true in Hv.
Qed.

Example parseFloat_samples :
  parseFloat "5.5" = Decimal false 55 (-1)
  /\ parseFloat "  -12.50e3kg" = Decimal true 1250 1
  /\ parseFloat ".5" = Decimal false 5 (-1)
  /\ parseFloat "1.e2" = Decimal false 1 2
  /\ parseFloat "7e" = Decimal false 7 0
  /\ parseFloat "." = NaN
  /\ parseFloat "" = NaN
  /\ parseFloat "abc" = NaN
  /\ parseFloat "-Infinity" = Infinity true
  /\ le_zero (parseFloat "1e-400") = true
  /\ le_zero (parseFloat "2e-324") = true
  /\ le_zero (parseFloat "3e-324") = false
  /\ le_zero (parseFloat "-0") = true
  /\ le_zero (parseFloat "0.000") = true
  /\ le_zero (parseFloat "5.5") = false.
Proof. vm_compute. repeat split; reflexivity. Qed.

(** ** The stable map *)

Section StoreFacts.
Context `{Host} {V : Type}.
Implicit Types (k : text) (v : V) (m : StableBTreeMap V).

Lemma get_replace_eq k v m :
  get k m <> None -> get k (replace k v m) = Some v.
Proof.
  induction m as [|[k' v'] rest IH]; simpl; [congruence|].
  destruct (k =? k')%string eqn:E; simpl.
  - now rewrite String.eqb_refl.
  - now rewrite E.
Qed.

Lemma get_replace_ne k k0 v m :
  k0 <> k -> get k0 (replace k v m) = get k0 m.
Proof.
  intros Hne. induction m as [|[k' v'] rest IH]; simpl; [reflexivity|].
  destruct (k =? k')%string eqn:E; simpl.
  - apply String.eqb_eq in E. subst k'.
    apply String.eqb_neq in Hne. now rewrite Hne.
  - now rewrite IH.
Qed.

Lemma get_place_eq k v m : get k m = None -> get k (place k v m) = Some v.
Proof.
  induction m as [|[k' v'] rest IH]; simpl.
  - now rewrite String.eqb_refl.
  - destruct (k =? k')%string eqn:E; [discriminate|]. intros Hg.
    destruct (key_lt k k'); simpl.
    + now rewrite String.eqb_refl.
    + rewrite E. now apply IH.
Qed.

Lemma get_place_ne k k0 v m : k0 <> k -> get k0 (place k v m) = get k0 m.
Proof.
  intros Hne. apply String.eqb_neq in Hne.
  induction m as [|[k' v'] rest IH]; simpl.
  - now rewrite Hne.
  - destruct (key_lt k k'); simpl.
    + now rewrite Hne.
    + now rewrite IH.
Qed.

Lemma get_insert_eq k v m : get k (insert k v m) = Some v.
Proof.
  unfold insert. destruct (get k m) eqn:E.
  - apply get_replace_eq. congruence.
  - now apply get_place_eq.
Qed.

Lemma get_insert_ne k k0 v m : k0 <> k -> get k0 (insert k v m) = get k0 m.
Proof.
  intros Hne. unfold insert. destruct (get k m).
  - now apply get_replace_ne.
  - now apply get_place_ne.
Qed.

Lemma get_Some_split k v m :
  get k m = Some v ->
  exists pre post, m = pre ++ (k, v) :: post /\ get k pre = None.
Proof.
  induction m as [|[k' v'] rest IH]; simpl; [discriminate|].
  destruct (k =? k')%string eqn:E.
  - intros [= ->]. apply String.eqb_eq in E. subst k'.
    now exists [], rest.
  - intros Hg. destruct (IH Hg) as (pre & post & -> & Hpre).
    exists ((k', v') :: pre), post. simpl. now rewrite E.
Qed.

Lemma replace_split k v v0 pre post :
  get k pre = None ->
  replace k v (pre ++ (k, v0) :: post) = pre ++ (k, v) :: post.
Proof.
  induction pre as [|[k' v'] pre IH]; simpl.
  - now rewrite String.eqb_refl.
  - destruct (k =? k')%string; [discriminate|]. intros Hg. now rewrite IH.
Qed.

(** Overwriting a key that is present changes the one entry it finds and
    nothing around it. *)
Lemma insert_present k v v0 m :
  get k m = Some v0 ->
  exists pre post,
    m = pre ++ (k, v0) :: post /\ get k pre = None
    /\ insert k v m = pre ++ (k, v) :: post.
Proof.
  intros Hg. destruct (get_Some_split k v0 m Hg) as (pre & post & -> & Hpre).
  exists pre, post. repeat split; [assumption|].
  unfold insert. rewrite Hg. now apply replace_split.
Qed.

Lemma In_replace k v m :
  get k m <> None -> In (k, v) (replace k v m).
Proof.
  induction m as [|[k' v'] rest IH]; simpl; [congruence|].
  destruct (k =? k')%string; simpl; auto.
Qed.

Lemma In_place k v m : In (k, v) (place k v m).
Proof.
  induction m as [|[k' v'] rest IH]; simpl; [auto|].
  destruct (key_lt k k'); simpl; auto.
Qed.

Lemma In_insert k v m : In (k, v) (insert k v m).
Proof.
  unfold insert. destruct (get k m) eqn:E.
  - apply In_replace. congruence.
  - apply In_place.
Qed.

Lemma In_values_insert k v m : In v (values (insert k v m)).
Proof.
  unfold values. apply in_map_iff. exists (k, v). split; [reflexivity|].
  apply In_insert.
Qed.

Lemma In_insert_inv k v m e :
  In e (insert k v m) -> e = (k, v) \/ In e m.
Proof.
  unfold insert. destruct (get k m) as [v0|].
  - induction m as [|[k' v'] rest IH]; simpl; [tauto|].
    destruct (k =? k')%string; simpl; intuition auto.
  - induction m as [|[k' v'] rest IH]; simpl; [intuition auto|].
    destruct (key_lt k k'); simpl; intuition auto.
Qed.

Lemma keyed_insert (idf : V -> text) k v m :
  keyed idf m -> idf v = k -> keyed idf (insert k v m).
Proof.
  unfold keyed. rewrite !Forall_forall. intros Hm Hv e He.
  destruct (In_insert_inv k v m e He) as [->|Hin]; [assumption|auto].
Qed.

Lemma keyed_remove (idf : V -> text) k m :
  keyed idf m -> keyed idf (remove k m).
Proof.
  unfold keyed, remove. rewrite !Forall_forall. intros Hm e He.
  apply filter_In in He. now apply Hm.
Qed.

(** In a keyed store a scan for an identifier finds first what [get]
    returns for it. *)
Lemma keyed_scan_Some (idf : V -> text) k v m :
  keyed idf m -> get k m = Some v ->
  exists others, filter (fun x => (idf x =? k)%string) (values m) = v :: others.
Proof.
  unfold keyed. induction m as [|[k' v'] rest IH]; simpl; [discriminate|].
  intros Hk. inversion Hk as [|? ? Hhd Htl]; subst. simpl in Hhd.
  rewrite Hhd. rewrite (String.eqb_sym k' k).
  destruct (k =? k')%string.
  - intros [= ->]. eauto.
  - now apply IH.
Qed.

Lemma keyed_scan_None (idf : V -> text) k m :
  keyed idf m -> get k m = None ->
  filter (fun x => (idf x =? k)%string) (values m) = [].
Proof.
  unfold keyed. induction m as [|[k' v'] rest IH]; simpl; [reflexivity|].
  intros Hk. inversion Hk as [|? ? Hhd Htl]; subst. simpl in Hhd.
  rewrite Hhd. rewrite (String.eqb_sym k' k).
  destruct (k =? k')%string; [discriminate|]. now apply IH.
Qed.

End StoreFacts.

(** ** Scans *)

Lemma filter_selects {V : Type} (f : V -> bool) (P : V -> Prop) (l : list V) :
  (forall x, f x = true <-> P x) -> selects P l (filter f l).
Proof.
  intros Hf. induction l as [|x l IH]; simpl; [constructor|].
  destruct (f x) eqn:E.
  - apply selects_keep; [now apply Hf|assumption].
  - apply selects_skip; [|assumption]. rewrite <- Hf. congruence.
Qed.

Lemma selects_In {V : Type} (P : V -> Prop) (l out : list V) :
  selects P l out -> forall x, In x out <-> In x l /\ P x.
Proof.
  induction 1 as [|x l out Hx _ IH|x l out Hx _ IH]; intros y; simpl.
  - tauto.
  - rewrite IH. split; [intros [->|[? ?]]; auto|intros [[->|?] ?]; auto].
  - rewrite IH. split; [intros [? ?]; auto|].
    intros [[->|?] ?]; [contradiction|auto].
Qed.

Lemma filter_head_first {V : Type} (f : V -> bool) (l : list V) x rest :
  filter f l = x :: rest ->
  exists pre post,
    l = pre ++ x :: post /\ f x = true /\ Forall (fun y => f y = false) pre.
Proof.
  induction l as [|y l IH]; simpl; [discriminate|].
  destruct (f y) eqn:E.
  - intros [= -> _]. exists [], l. auto.
  - intros Hf. destruct (IH Hf) as (pre & post & -> & Hx & Hpre).
    exists (y :: pre), post. auto.
Qed.

Lemma filter_nil_none {V : Type} (f : V -> bool) (l : list V) :
  filter f l = [] <-> (forall x, In x l -> f x = false).
Proof.
  induction l as [|y l IH]; simpl; [intuition auto|].
  destruct (f y) eqn:E.
  - split; [discriminate|]. intros Hall.
    specialize (Hall y (or_introl eq_refl)). congruence.
  - rewrite IH. split; [intros Hall x [->|Hx]; auto|auto].
Qed.

(** ** What the handlers do to the stores *)

(** Follows a handler down its branches. *)
Ltac branches :=
  repeat match goal with
         | |- context [if ?c then _ else _] => destruct c eqn:?
         | |- context [match ?x with _ => _ end] => destruct x eqn:?
         end;
  simpl in *.

Ltac open_call :=
  unfold update, query,
    First.createDriver, First.deleteDriver, First.createVehicle,
    First.deleteVehicle, First.updateVehicleStatus, First.createBooking,
    First.recordFuelConsumption, First.scheduleMaintenance,
    First.requestEmergencyAssistance, First.createRoute,
    Second.createDriver, Second.createVehicle, Second.createBooking,
    Second.recordFuelConsumption, Second.scheduleMaintenance,
    Second.requestEmergencyAssistance, Second.createRoute.

Section Frames.
Context `{Host}.

(** C7. Whenever a call of either handler set answers with an error
    (InvalidPayload, NotFound or Error), the seven stores are exactly the
    stores the call started from. *)
Theorem error_leaves_stores (env : Env) (c : Call) (st : State) :
  is_err (fst (exec env c st)) = true -> snd (exec env c st) = st.
Proof.
  destruct c as [op|op]; destruct op; simpl; open_call; simpl;
    try reflexivity; branches; intros Herr;
    try reflexivity; discriminate Herr.
Qed.

(** C8. A vehicle payload whose capacity is at most zero is answered with
    InvalidPayload by both [createVehicle] handlers, whatever its
    registration number, model and location, and whatever the stores hold. *)
Theorem createVehicle_no_capacity (env : Env) (payload : VehiclePayload.t)
  (st : State) :
  (VehiclePayload.capacity payload <= 0)%N ->
  First.createVehicle env payload st
  = (Err (InvalidPayload "Missing or invalid vehicle data"), st)
  /\ Second.createVehicle env payload st
     = (Err (InvalidPayload "Missing required fields"), st).
Proof.
  intros Hcap. unfold First.createVehicle, Second.createVehicle.
  assert (Hz : VehiclePayload.capacity payload = 0%N) by lia.
  rewrite Hz. simpl.
  now rewrite !orb_true_r.
Qed.

(** C9. Apart from [createVehicle], [deleteVehicle] and
    [updateVehicleStatus], no call changes the vehicle store; and a
    [createBooking] that succeeds changes the booking store alone, by the
    insertion of the booking it returns, the booked vehicle staying in the
    vehicle store with its status Available. *)
Theorem vehicles_only_written_by_vehicle_calls :
  (forall env c st,
      writes_vehicles c = false ->
      vehicleStorage (snd (exec env c st)) = vehicleStorage st)
  /\ (forall env payload st booking st',
         First.createBooking env payload st = (Ok booking, st')
         \/ Second.createBooking env payload st = (Ok booking, st') ->
         st' = with_bookingStorage
                 (insert (Booking.id booking) booking (bookingStorage st)) st
         /\ vehicleStorage st' = vehicleStorage st
         /\ forall vehicle,
             keyed Vehicle.id (vehicleStorage st) ->
             get (BookingPayload.vehicle_id payload) (vehicleStorage st)
             = Some vehicle ->
             get (BookingPayload.vehicle_id payload) (vehicleStorage st')
             = Some vehicle
             /\ Vehicle.status vehicle = VehicleStatus.Available).
Proof.
  split.
  - intros env c st Hw.
    destruct c as [op|op]; destruct op; simpl in Hw; try discriminate Hw;
      simpl; open_call; simpl; try reflexivity; branches; reflexivity.
  - intros env payload st booking st' Hcall.
    assert (Hst : st' = with_bookingStorage
                          (insert (Booking.id booking) booking
                                  (bookingStorage st)) st
                  /\ forall vehicle,
                      keyed Vehicle.id (vehicleStorage st) ->
                      get (BookingPayload.vehicle_id payload)
                          (vehicleStorage st) = Some vehicle ->
                      Vehicle.status vehicle = VehicleStatus.Available).
    { destruct Hcall as [Hcall|Hcall]; revert Hcall;
        unfold First.createBooking, Second.createBooking.
      - destruct (_ || _)%bool; [discriminate|].
        destruct (filter _ (values (vehicleStorage st)))
          as [|vehicle0 others] eqn:Escan; [discriminate|].
        destruct (strict_eq_primitive _ _) eqn:Eav; [discriminate|].
        destruct (filter _ (values (driverStorage st))); [discriminate|].
        intros [= <- <-]. simpl. split; [reflexivity|].
        intros vehicle Hk Hg.
        destruct (keyed_scan_Some Vehicle.id _ _ _ Hk Hg) as [o Ho].
        rewrite Ho in Escan. injection Escan as <- _.
        destruct (Vehicle.status vehicle); simpl in Eav;
          [reflexivity|discriminate|discriminate].
      - destruct (_ || _)%bool; [discriminate|].
        destruct (filter _ (values (vehicleStorage st))); [discriminate|].
        simpl. discriminate. }
    destruct Hst as [-> Hav]. simpl. repeat split; auto.
Qed.

(** C10. [updateVehicleStatus] on an identifier the vehicle store holds
    leaves the six other stores as they are and, in the vehicle store,
    every entry before and after the one it finds; the record it leaves
    there differs from the record it read in nothing but its status.  When
    the identifier passes [validateId], that status is the one asked for. *)
Theorem updateVehicleStatus_touches_status_only (vehicleId : text)
  (status : VehicleStatus.t) (st : State) (vehicle : Vehicle.t) :
  get vehicleId (vehicleStorage st) = Some vehicle ->
  exists before after updated,
    vehicleStorage st = before ++ (vehicleId, vehicle) :: after
    /\ get vehicleId before = None
    /\ snd (First.updateVehicleStatus vehicleId status st)
       = with_vehicleStorage (before ++ (vehicleId, updated) :: after) st
    /\ Vehicle.id updated = Vehicle.id vehicle
    /\ Vehicle.registration_number updated = Vehicle.registration_number vehicle
    /\ Vehicle.model updated = Vehicle.model vehicle
    /\ Vehicle.capacity updated = Vehicle.capacity vehicle
    /\ Vehicle.location updated = Vehicle.location vehicle
    /\ Vehicle.created_at updated = Vehicle.created_at vehicle
    /\ (validateId vehicleId = true ->
        Vehicle.status updated = status
        /\ fst (First.updateVehicleStatus vehicleId status st)
           = Ok (Success "Vehicle status updated successfully")).
Proof.
  intros Hg.
  destruct (insert_present vehicleId (First.set_status vehicle status)
              vehicle (vehicleStorage st) Hg)
    as (before & after & Hm & Hpre & Hins).
  unfold First.updateVehicleStatus. rewrite Hg, Hins.
  destruct (validateId vehicleId); simpl.
  - exists before, after, (First.set_status vehicle status).
    simpl. repeat split; assumption.
  - exists before, after, vehicle. rewrite <- Hm.
    repeat split; try assumption; try discriminate.
    now destruct st.
Qed.

End Frames.

(** ** Bookings *)

Section Bookings.
Context `{Host}.

Lemma booking_fields_pass (env : Env) (payload : BookingPayload.t) :
  BookingPayload.from_location payload <> "" ->
  BookingPayload.to_location payload <> "" ->
  (time env < BookingPayload.start_time payload)%N ->
  (falsy (BookingPayload.from_location payload)
   || falsy (BookingPayload.to_location payload)
   || (BookingPayload.start_time payload <=? time env)%N)%bool = false.
Proof.
  intros Hf Ht Hs.
  apply falsy_false in Hf. apply falsy_false in Ht.
  rewrite Hf, Ht. simpl. apply N.leb_gt. assumption.
Qed.

(** C3. A booking payload that passes the field checks and names a stored
    vehicle whose status is not Available is answered with Error by both
    [createBooking] handlers, and the stores, the booking store and the
    vehicle's record among them, are left as they were. *)
Theorem createBooking_vehicle_not_available (env : Env)
  (payload : BookingPayload.t) (st : State) (vehicle : Vehicle.t) :
  BookingPayload.from_location payload <> "" ->
  BookingPayload.to_location payload <> "" ->
  (time env < BookingPayload.start_time payload)%N ->
  keyed Vehicle.id (vehicleStorage st) ->
  get (BookingPayload.vehicle_id payload) (vehicleStorage st) = Some vehicle ->
  Vehicle.status vehicle <> VehicleStatus.Available ->
  First.createBooking env payload st
  = (Err (Error "Vehicle is not available"), st)
  /\ Second.createBooking env payload st
     = (Err (Error "Vehicle is not available"), st).
Proof.
  intros Hf Ht Hs Hk Hg Hna.
  destruct (keyed_scan_Some Vehicle.id _ _ _ Hk Hg) as [others Hscan].
  unfold First.createBooking, Second.createBooking.
  rewrite (booking_fields_pass env payload Hf Ht Hs), Hscan.
  split; [|reflexivity].
  destruct (Vehicle.status vehicle); simpl; [contradiction|reflexivity..].
Qed.

(** A booking the store holds is listed under its vehicle. *)
Lemma First_getBookingByVehicleId_lists (st : State) (booking : Booking.t) :
  In booking (values (bookingStorage st)) ->
  exists bookings,
    First.getBookingByVehicleId (Booking.vehicle_id booking) st = Ok bookings
    /\ In booking bookings.
Proof.
  intros Hin. unfold First.getBookingByVehicleId.
  assert (Hf : In booking
                 (filter (fun b => (Booking.vehicle_id b
                                    =? Booking.vehicle_id booking)%string)
                         (values (bookingStorage st)))).
  { apply filter_In. split; [assumption|apply String.eqb_refl]. }
  destruct (filter _ (values (bookingStorage st))) as [|b0 bs].
  - destruct Hf.
  - exists (b0 :: bs). split; [reflexivity|assumption].
Qed.

(** The first handler set books an Available vehicle: the booking is
    pending and the next [getBookingByVehicleId] lists it. *)
Lemma First_createBooking_books (env : Env) (payload : BookingPayload.t)
  (st : State) (vehicle : Vehicle.t) (driver : Driver.t) :
  BookingPayload.from_location payload <> "" ->
  BookingPayload.to_location payload <> "" ->
  (time env < BookingPayload.start_time payload)%N ->
  keyed Vehicle.id (vehicleStorage st) ->
  get (BookingPayload.vehicle_id payload) (vehicleStorage st) = Some vehicle ->
  Vehicle.status vehicle = VehicleStatus.Available ->
  keyed Driver.id (driverStorage st) ->
  get (BookingPayload.driver_id payload) (driverStorage st) = Some driver ->
  exists booking st' bookings,
    First.createBooking env payload st = (Ok booking, st')
    /\ Booking.status booking = "pending"
    /\ Booking.vehicle_id booking = BookingPayload.vehicle_id payload
    /\ First.getBookingByVehicleId (BookingPayload.vehicle_id payload) st'
       = Ok bookings
    /\ In booking bookings.
Proof.
  intros Hf Ht Hs Hkv Hgv Hav Hkd Hgd.
  destruct (keyed_scan_Some Vehicle.id _ _ _ Hkv Hgv) as [vs Hvs].
  destruct (keyed_scan_Some Driver.id _ _ _ Hkd Hgd) as [ds Hds].
  unfold First.createBooking.
  rewrite (booking_fields_pass env payload Hf Ht Hs), Hvs, Hav, Hds.
  cbn [Available_property strict_eq_primitive].
  match goal with
  | |- context [(Ok ?b, ?s)] =>
      destruct (First_getBookingByVehicleId_lists s b) as (bookings & Hl & Hin);
      [apply In_values_insert|exists b, s, bookings]
  end.
  repeat split; assumption.
Qed.

(** C2. In the second handler set the availability check never lets a
    stored vehicle through: for a payload that passes the field checks and
    names a stored vehicle, whatever the vehicle's status and whoever the
    driver, [createBooking] answers with Error and books nothing. *)
Theorem Second_createBooking_refuses_stored_vehicle (env : Env)
  (payload : BookingPayload.t) (st : State) (vehicle : Vehicle.t) :
  BookingPayload.from_location payload <> "" ->
  BookingPayload.to_location payload <> "" ->
  (time env < BookingPayload.start_time payload)%N ->
  keyed Vehicle.id (vehicleStorage st) ->
  get (BookingPayload.vehicle_id payload) (vehicleStorage st) = Some vehicle ->
  Second.createBooking env payload st
  = (Err (Error "Vehicle is not available"), st).
Proof.
  intros Hf Ht Hs Hk Hg.
  destruct (keyed_scan_Some Vehicle.id _ _ _ Hk Hg) as [others Hscan].
  unfold Second.createBooking.
  now rewrite (booking_fields_pass env payload Hf Ht Hs), Hscan.
Qed.

(** No call of [createBooking] in the second handler set succeeds. *)
Lemma Second_createBooking_never_Ok (env : Env) (payload : BookingPayload.t)
  (st : State) : is_err (fst (Second.createBooking env payload st)) = true.
Proof.
  unfold Second.createBooking.
  destruct (_ || _)%bool; [reflexivity|].
  destruct (filter _ (values (vehicleStorage st))); reflexivity.
Qed.

End Bookings.

(** ** Fuel consumption *)

Section Fuel.
Context `{Host}.

(** An amount of ["0"] is turned down, whatever the stores hold. *)
Lemma recordFuelConsumption_zero (env : Env) (vehicle_id : text) (date : N)
  (st : State) :
  let payload := FuelConsumptionPayload.mk vehicle_id "0" date in
  First.recordFuelConsumption env payload st
  = (Err (InvalidPayload "Amount must be greater than zero"), st)
  /\ Second.recordFuelConsumption env payload st
     = (Err (InvalidPayload "Amount must be greater than zero"), st).
Proof. split; reflexivity. Qed.

(** An amount of ["5.5"] for a stored vehicle is recorded as it was sent. *)
Lemma recordFuelConsumption_5_5 (env : Env) (vehicle_id : text) (date : N)
  (st : State) (vehicle : Vehicle.t) :
  let payload := FuelConsumptionPayload.mk vehicle_id "5.5" date in
  keyed Vehicle.id (vehicleStorage st) ->
  get vehicle_id (vehicleStorage st) = Some vehicle ->
  exists record,
    fst (First.recordFuelConsumption env payload st) = Ok record
    /\ fst (Second.recordFuelConsumption env payload st) = Ok record
    /\ FuelConsumption.amount record = "5.5".
Proof.
  intros payload Hk Hg.
  destruct (keyed_scan_Some Vehicle.id _ _ _ Hk Hg) as [others Hscan].
  unfold First.recordFuelConsumption, Second.recordFuelConsumption.
  replace (le_zero (parseFloat (FuelConsumptionPayload.amount payload)))
    with false by (vm_compute; reflexivity).
  cbn [FuelConsumptionPayload.vehicle_id payload].
  rewrite Hg, Hscan. cbn [fst]. eexists. repeat split.
Qed.

(** C1. An amount that [parseFloat] reads as NaN passes the amount check
    of both [recordFuelConsumption] handlers: the answer is never
    InvalidPayload, and for a stored vehicle the amount is recorded as it
    was sent. *)
Theorem recordFuelConsumption_accepts_NaN (env : Env)
  (payload : FuelConsumptionPayload.t) (st : State) :
  parseFloat (FuelConsumptionPayload.amount payload) = NaN ->
  (forall m,
      fst (First.recordFuelConsumption env payload st) <> Err (InvalidPayload m)
      /\ fst (Second.recordFuelConsumption env payload st)
         <> Err (InvalidPayload m))
  /\ (forall vehicle,
         keyed Vehicle.id (vehicleStorage st) ->
         get (FuelConsumptionPayload.vehicle_id payload) (vehicleStorage st)
         = Some vehicle ->
         exists record,
           fst (First.recordFuelConsumption env payload st) = Ok record
           /\ fst (Second.recordFuelConsumption env payload st) = Ok record
           /\ FuelConsumption.amount record
              = FuelConsumptionPayload.amount payload).
Proof.
  intros Hnan.
  unfold First.recordFuelConsumption, Second.recordFuelConsumption.
  rewrite Hnan. cbn [le_zero]. split.
  - intros m. split.
    + destruct (get _ (vehicleStorage st)); cbn [fst]; discriminate.
    + destruct (filter _ (values (vehicleStorage st))); cbn [fst]; discriminate.
  - intros vehicle Hk Hg.
    destruct (keyed_scan_Some Vehicle.id _ _ _ Hk Hg) as [others Hscan].
    rewrite Hg, Hscan. cbn [fst]. eexists. repeat split.
Qed.

End Fuel.

(** ** Filters *)

Lemma scan_lists_all {V : Type} (f : V -> bool) (P : V -> Prop) (l : list V)
  (msg : text) :
  (forall x, f x = true <-> P x) ->
  lists_all P l
    match filter f l with
    | [] => Err (NotFound msg)
    | x :: out => Ok (x :: out)
    end.
Proof.
  intros Hf. destruct (filter f l) as [|x out] eqn:E; simpl.
  - intros y Hy HP. apply Hf in HP.
    rewrite (proj1 (filter_nil_none f l) E y Hy) in HP. discriminate.
  - split; [discriminate|]. rewrite <- E. now apply filter_selects.
Qed.

Lemma scan_gives_first {V : Type} (f : V -> bool) (P : V -> Prop) (l : list V)
  (msg : text) :
  (forall x, f x = true <-> P x) ->
  gives_first P l
    match filter f l with
    | [] => Err (NotFound msg)
    | x :: _ => Ok x
    end.
Proof.
  intros Hf. destruct (filter f l) as [|x out] eqn:E; simpl.
  - intros y Hy HP. apply Hf in HP.
    rewrite (proj1 (filter_nil_none f l) E y Hy) in HP. discriminate.
  - destruct (filter_head_first f l x out E) as (pre & post & -> & Hx & Hpre).
    exists pre, post. repeat split; [now apply Hf|].
    intros y Hy HP. apply Hf in HP.
    rewrite Forall_forall in Hpre. rewrite (Hpre y Hy) in HP. discriminate.
Qed.

(** C4, as amended. [getVehicleByModel], [getBookingByVehicleId] and
    [getBookingByDriverId] answer with every record whose field equals the
    argument, in scan order; [getDriverByLicenseNumber] and
    [getVehicleByRegistrationNumber] answer with the first such record of
    the scan only; each of them answers NotFound exactly when no record
    matches. *)
Theorem filters_list_all_or_give_first (st : State) (x : text) :
  lists_all (fun v => Vehicle.model v = x) (values (vehicleStorage st))
    (Second.getVehicleByModel x st)
  /\ lists_all (fun b => Booking.vehicle_id b = x) (values (bookingStorage st))
       (First.getBookingByVehicleId x st)
  /\ lists_all (fun b => Booking.vehicle_id b = x) (values (bookingStorage st))
       (Second.getBookingByVehicleId x st)
  /\ lists_all (fun b => Booking.driver_id b = x) (values (bookingStorage st))
       (Second.getBookingByDriverId x st)
  /\ gives_first (fun d => Driver.license_number d = x)
       (values (driverStorage st)) (First.getDriverByLicenseNumber x st)
  /\ gives_first (fun v => Vehicle.registration_number v = x)
       (values (vehicleStorage st))
       (First.getVehicleByRegistrationNumber x st)
  /\ gives_first (fun v => Vehicle.registration_number v = x)
       (values (vehicleStorage st))
       (Second.getVehicleByRegistrationNumber x st).
Proof.
  repeat split;
    first [ apply scan_lists_all | apply scan_gives_first ];
    intros y; apply String.eqb_eq.
Qed.

(** ** Lookups by identifier *)

(** The first handler set turns a blank identifier down and looks the
    others up. *)
Lemma First_get_by_id (id : text) (st : State) :
  (blank id ->
   First.getDriverById id st = Err (InvalidPayload "Invalid driver ID")
   /\ First.getVehicleById id st = Err (InvalidPayload "Invalid vehicle ID"))
  /\ (~ blank id ->
      First.getDriverById id st
      = match get id (driverStorage st) with
        | Some d => Ok d
        | None => Err (NotFound "Driver not found")
        end
      /\ First.getVehicleById id st
         = match get id (vehicleStorage st) with
           | Some v => Ok v
           | None => Err (NotFound "Vehicle not found")
           end).
Proof.
  unfold First.getDriverById, First.getVehicleById. split; intros Hb.
  - apply validateId_blank in Hb. now rewrite Hb.
  - destruct (validateId id) eqn:E.
    + simpl. split; [destruct (get id (driverStorage st))
                    |destruct (get id (vehicleStorage st))]; reflexivity.
    + apply validateId_false_iff in E. contradiction.
Qed.

(** C5. The get-by-id handlers of the second handler set do not look at
    the shape of the identifier.  Whatever the identifier, the empty and
    the blank ones included, they answer NotFound when the store does not
    hold it, and they never answer InvalidPayload. *)
Theorem Second_get_by_id_unvalidated (id : text) (st : State) :
  (get id (driverStorage st) = None ->
   Second.getDriverById id st = Err (NotFound "Driver not found"))
  /\ (get id (vehicleStorage st) = None ->
      Second.getVehicleById id st = Err (NotFound "Vehicle not found"))
  /\ (get id (bookingStorage st) = None ->
      Second.getBookingById id st = Err (NotFound "Booking not found"))
  /\ (get id (routeStorage st) = None ->
      Second.getRouteById id st = Err (NotFound "Route not found"))
  /\ forall m,
      Second.getDriverById id st <> Err (InvalidPayload m)
      /\ Second.getVehicleById id st <> Err (InvalidPayload m)
      /\ Second.getBookingById id st <> Err (InvalidPayload m)
      /\ Second.getRouteById id st <> Err (InvalidPayload m).
Proof.
  unfold Second.getDriverById, Second.getVehicleById, Second.getBookingById,
    Second.getRouteById.
  repeat split; try (intros ->; reflexivity).
  - destruct (get id (driverStorage st)); discriminate.
  - destruct (get id (vehicleStorage st)); discriminate.
  - destruct (get id (bookingStorage st)); discriminate.
  - destruct (get id (routeStorage st)); discriminate.
Qed.

(** ** Field checks of the create handlers *)

Section Creates.
Context `{Host}.

Lemma leb_of_le (a b : N) : (a <= b)%N -> (a <=? b)%N = true.
Proof. apply N.leb_le. Qed.

(** Rewrites with the field the payload lacks and lets the check fire. *)
Ltac field_gone :=
  repeat match goal with
         | Hx : _ \/ _ |- _ => destruct Hx as [Hx|Hx]
         end;
  match goal with
  | Hx : _ = "" |- _ => rewrite Hx
  | Hx : _ = 0%N |- _ => rewrite Hx
  | Hx : (_ <= _)%N |- _ => rewrite (leb_of_le _ _ Hx)
  | Hx : le_zero _ = true |- _ => rewrite Hx
  end;
  simpl; rewrite ?orb_true_r; reflexivity.

(** C6, as amended. A create call whose payload lacks one of the fields
    its handler checks is answered with InvalidPayload, the same for every
    content of the stores, which are left as they were.  The identifiers a
    payload refers to are not among the checked fields.  With the checked
    fields in order, an empty [vehicle_id] that no stored vehicle carries
    is answered with NotFound by [createBooking], [recordFuelConsumption],
    [scheduleMaintenance] and [requestEmergencyAssistance] of both handler
    sets; and an empty [driver_id] that no stored driver carries is
    answered with NotFound by the [createBooking] of the first set, once
    it has found the vehicle Available. *)
Theorem create_checks_fields_not_references :
  (forall env c,
      lacks_checked_field env c ->
      exists m, forall st, exec env c st = (Err (InvalidPayload m), st))
  /\ (forall env payload st,
         BookingPayload.from_location payload <> "" ->
         BookingPayload.to_location payload <> "" ->
         (time env < BookingPayload.start_time payload)%N ->
         BookingPayload.vehicle_id payload = "" ->
         keyed Vehicle.id (vehicleStorage st) ->
         get "" (vehicleStorage st) = None ->
         First.createBooking env payload st
         = (Err (NotFound "Vehicle not found"), st)
         /\ Second.createBooking env payload st
            = (Err (NotFound "Vehicle not found"), st))
  /\ (forall env payload st,
         le_zero (parseFloat (FuelConsumptionPayload.amount payload)) = false ->
         FuelConsumptionPayload.vehicle_id payload = "" ->
         keyed Vehicle.id (vehicleStorage st) ->
         get "" (vehicleStorage st) = None ->
         First.recordFuelConsumption env payload st
         = (Err (NotFound "Vehicle not found"), st)
         /\ Second.recordFuelConsumption env payload st
            = (Err (NotFound "Vehicle not found"), st))
  /\ (forall env payload st,
         MaintenancePayload.description payload <> "" ->
         (time env < MaintenancePayload.scheduled_date payload)%N ->
         MaintenancePayload.vehicle_id payload = "" ->
         keyed Vehicle.id (vehicleStorage st) ->
         get "" (vehicleStorage st) = None ->
         First.scheduleMaintenance env payload st
         = (Err (NotFound "Vehicle not found"), st)
         /\ Second.scheduleMaintenance env payload st
            = (Err (NotFound "Vehicle not found"), st))
  /\ (forall env payload st,
         EmergencyAssistancePayload.description payload <> "" ->
         EmergencyAssistancePayload.location payload <> "" ->
         EmergencyAssistancePayload.vehicle_id payload = "" ->
         keyed Vehicle.id (vehicleStorage st) ->
         get "" (vehicleStorage st) = None ->
         First.requestEmergencyAssistance env payload st
         = (Err (NotFound "Vehicle not found"), st)
         /\ Second.requestEmergencyAssistance env payload st
            = (Err (NotFound "Vehicle not found"), st))
  /\ (forall env payload st vehicle,
         BookingPayload.from_location payload <> "" ->
         BookingPayload.to_location payload <> "" ->
         (time env < BookingPayload.start_time payload)%N ->
         keyed Vehicle.id (vehicleStorage st) ->
         get (BookingPayload.vehicle_id payload) (vehicleStorage st)
         = Some vehicle ->
         Vehicle.status vehicle = VehicleStatus.Available ->
         BookingPayload.driver_id payload = "" ->
         keyed Driver.id (driverStorage st) ->
         get "" (driverStorage st) = None ->
         First.createBooking env payload st
         = (Err (NotFound "Driver not found"), st)).
Proof.
  split; [|split; [|split; [|split; [|split]]]].
  - intros env c Hlack.
    destruct c as [op|op]; destruct op; simpl in Hlack; try contradiction;
      eexists; intros st; simpl; open_call; field_gone.
  - intros env payload st Hf Ht Hs Hv Hk Hg.
    unfold First.createBooking, Second.createBooking.
    rewrite (booking_fields_pass env payload Hf Ht Hs), Hv,
      (keyed_scan_None Vehicle.id "" _ Hk Hg).
    split; reflexivity.
  - intros env payload st Hamount Hv Hk Hg.
    unfold First.recordFuelConsumption, Second.recordFuelConsumption.
    rewrite Hamount, Hv, Hg, (keyed_scan_None Vehicle.id "" _ Hk Hg).
    split; reflexivity.
  - intros env payload st Hd Hdate Hv Hk Hg.
    apply falsy_false in Hd. apply N.leb_gt in Hdate.
    unfold First.scheduleMaintenance, Second.scheduleMaintenance.
    rewrite Hd, Hdate, Hv, Hg, (keyed_scan_None Vehicle.id "" _ Hk Hg).
    split; reflexivity.
  - intros env payload st Hd Hl Hv Hk Hg.
    apply falsy_false in Hd. apply falsy_false in Hl.
    unfold First.requestEmergencyAssistance, Second.requestEmergencyAssistance.
    rewrite Hd, Hl, Hv, Hg, (keyed_scan_None Vehicle.id "" _ Hk Hg).
    split; reflexivity.
  - intros env payload st vehicle Hf Ht Hs Hk Hg Hav Hd Hkd Hgd.
    destruct (keyed_scan_Some Vehicle.id _ _ _ Hk Hg) as [others Hscan].
    unfold First.createBooking.
    rewrite (booking_fields_pass env payload Hf Ht Hs), Hscan, Hav, Hd,
      (keyed_scan_None Driver.id "" _ Hkd Hgd).
    reflexivity.
Qed.

End Creates.

(** ** The stores stay keyed *)

Section Invariant.
Context `{Host}.

Lemma keyed_get {V : Type} (idf : V -> text) (k : text) (v : V)
  (m : StableBTreeMap V) : keyed idf m -> get k m = Some v -> idf v = k.
Proof.
  unfold keyed. induction m as [|[k' v'] rest IH]; simpl; [discriminate|].
  intros Hk. inversion Hk as [|? ? Hhd Htl]; subst. simpl in Hhd.
  destruct (k =? k')%string eqn:E.
  - intros [= ->]. apply String.eqb_eq in E. congruence.
  - now apply IH.
Qed.

Lemma empty_state_well_keyed : well_keyed empty_state.
Proof. unfold well_keyed, keyed. simpl. repeat split; constructor. Qed.

Lemma exec_well_keyed (env : Env) (c : Call) (st : State) :
  well_keyed st -> well_keyed (snd (exec env c st)).
Proof.
  unfold well_keyed.
  intros (Hd & Hv & Hb & Hf & Hm & He & Hr).
  destruct c as [op|op]; destruct op; simpl; open_call; simpl;
    try (repeat split; assumption);
    branches;
    repeat split;
    first [ assumption
          | apply keyed_remove; assumption
          | apply keyed_insert; [assumption|]; simpl;
            first [ reflexivity | eapply keyed_get; eassumption ] ].
Qed.

(** Whatever calls were made since the canister was installed, every
    record sits under its own identifier. *)
Lemma exec_all_well_keyed (calls : list (Env * Call)) (st : State) :
  well_keyed st -> well_keyed (exec_all calls st).
Proof.
  revert st. induction calls as [|[env c] rest IH]; intros st Hst; simpl.
  - assumption.
  - apply IH. now apply exec_well_keyed.
Qed.

End Invariant.

(** ** The handlers on the small fleet *)

Section Samples.
#[local] Existing Instance sample_host.

Example fleet_stores :
  vehicleStorage fleet = [("v-1", stored_van)]
  /\ driverStorage fleet = [("d-1", stored_ada "d-1" 11)]
  /\ driverStorage two_drivers
     = [("d-1", stored_ada "d-1" 10); ("d-2", stored_bob)]
  /\ vehicleStorage fleet_in_maintenance
     = [("v-1", First.set_status stored_van VehicleStatus.Maintenance)].
Proof. repeat split; reflexivity. Qed.

(** C1, at an amount that is not a number. *)
Lemma recordFuelConsumption_accepts_NaN_witness :
  parseFloat "abc" = NaN
  /\ (forall m,
         fst (First.recordFuelConsumption (sample_env 20 "f-1")
                (fuel "v-1" "abc") fleet) <> Err (InvalidPayload m)
         /\ fst (Second.recordFuelConsumption (sample_env 20 "f-1")
                   (fuel "v-1" "abc") fleet) <> Err (InvalidPayload m)).
Proof.
  split; [reflexivity|].
  apply (recordFuelConsumption_accepts_NaN (sample_env 20 "f-1")
           (fuel "v-1" "abc") fleet).
  reflexivity.
Defined.

Example recordFuelConsumption_abc :
  fst (First.recordFuelConsumption (sample_env 20 "f-1") (fuel "v-1" "abc") fleet)
  = Ok {| FuelConsumption.id := "f-1";
          FuelConsumption.vehicle_id := "v-1";
          FuelConsumption.amount := "abc";
          FuelConsumption.date := 20 |}
  /\ fst (Second.recordFuelConsumption (sample_env 20 "f-1")
            (fuel "v-1" "abc") fleet)
     = fst (First.recordFuelConsumption (sample_env 20 "f-1")
              (fuel "v-1" "abc") fleet)
  /\ fst (First.recordFuelConsumption (sample_env 20 "f-1") (fuel "v-1" "") fleet)
     = Ok {| FuelConsumption.id := "f-1";
             FuelConsumption.vehicle_id := "v-1";
             FuelConsumption.amount := "";
             FuelConsumption.date := 20 |}.
Proof. repeat split; reflexivity. Qed.

(** C2, at the Available van and a stored driver. *)
Lemma Second_createBooking_refuses_stored_vehicle_witness :
  get "v-1" (vehicleStorage fleet) = Some stored_van
  /\ Vehicle.status stored_van = VehicleStatus.Available
  /\ get "d-1" (driverStorage fleet) = Some (stored_ada "d-1" 11)
  /\ Second.createBooking (sample_env 30 "b-1") (trip "v-1" "d-1" 30) fleet
     = (Err (Error "Vehicle is not available"), fleet).
Proof.
  split; [reflexivity|]. split; [reflexivity|]. split; [reflexivity|].
  apply (Second_createBooking_refuses_stored_vehicle (sample_env 30 "b-1")
           (trip "v-1" "d-1" 30) fleet stored_van).
  - discriminate.
  - discriminate.
  - reflexivity.
  - repeat constructor.
  - reflexivity.
Defined.

Example First_createBooking_on_fleet :
  exists booking st',
    First.createBooking (sample_env 30 "b-1") (trip "v-1" "d-1" 30) fleet
    = (Ok booking, st')
    /\ Booking.status booking = "pending"
    /\ First.getBookingByVehicleId "v-1" st' = Ok [booking].
Proof. eexists. eexists. repeat split. Qed.

(** C3, at the van in maintenance. *)
Lemma createBooking_vehicle_not_available_witness :
  First.createBooking (sample_env 30 "b-1") (trip "v-1" "d-1" 30)
    fleet_in_maintenance
  = (Err (Error "Vehicle is not available"), fleet_in_maintenance)
  /\ Second.createBooking (sample_env 30 "b-1") (trip "v-1" "d-1" 30)
       fleet_in_maintenance
     = (Err (Error "Vehicle is not available"), fleet_in_maintenance).
Proof.
  apply (createBooking_vehicle_not_available (sample_env 30 "b-1")
           (trip "v-1" "d-1" 30) fleet_in_maintenance
           (First.set_status stored_van VehicleStatus.Maintenance)).
  - discriminate.
  - discriminate.
  - reflexivity.
  - repeat constructor.
  - reflexivity.
  - discriminate.
Defined.

(** C4 as the claim has it fails on two drivers with one licence number:
    the answer is the first of them, and the second, which matches as
    well, is not in it. *)
Lemma getDriverByLicenseNumber_gives_one_of_two :
  First.getDriverByLicenseNumber "KBA-123" two_drivers
  = Ok (stored_ada "d-1" 10)
  /\ In stored_bob (values (driverStorage two_drivers))
  /\ Driver.license_number stored_bob = "KBA-123"
  /\ stored_bob <> stored_ada "d-1" 10.
Proof.
  repeat split.
  - right. left. reflexivity.
  - discriminate.
Qed.

(** C5, at the empty identifier and at one made of spaces. *)
Lemma Second_get_by_id_unvalidated_witness :
  blank "" /\ blank "  "
  /\ Second.getRouteById "" empty_state = Err (NotFound "Route not found")
  /\ Second.getDriverById "  " fleet = Err (NotFound "Driver not found").
Proof.
  split; [constructor|].
  split; [repeat (apply blank_1; [reflexivity|]); constructor|].
  split.
  - apply (Second_get_by_id_unvalidated "" empty_state). reflexivity.
  - apply (Second_get_by_id_unvalidated "  " fleet). reflexivity.
Defined.

(** C6 as the claim has it fails on a booking payload with an empty
    [vehicle_id]: the answer is NotFound. *)
Lemma createBooking_empty_vehicle_id_NotFound :
  First.createBooking (sample_env 30 "b-1") (trip "" "d-1" 30) fleet
  = (Err (NotFound "Vehicle not found"), fleet)
  /\ Second.createBooking (sample_env 30 "b-1") (trip "" "d-1" 30) fleet
     = (Err (NotFound "Vehicle not found"), fleet).
Proof. split; reflexivity. Qed.

(** C6 as amended, at a vehicle payload without a model and at payloads
    with an empty reference. *)
Lemma create_checks_fields_not_references_witness :
  (exists m, forall st,
      exec (sample_env 30 "v-2")
        (OnSecond (Second.CreateVehicle (VehiclePayload.mk "ABC-2" "" 4 "Depot")))
        st
      = (Err (InvalidPayload m), st))
  /\ First.createBooking (sample_env 30 "b-1") (trip "" "d-1" 30) fleet
     = (Err (NotFound "Vehicle not found"), fleet)
  /\ Second.recordFuelConsumption (sample_env 20 "f-1") (fuel "" "5.5") fleet
     = (Err (NotFound "Vehicle not found"), fleet)
  /\ First.scheduleMaintenance (sample_env 40 "m-1")
       (MaintenancePayload.mk "" "Oil change" 500) fleet
     = (Err (NotFound "Vehicle not found"), fleet)
  /\ Second.requestEmergencyAssistance (sample_env 40 "e-1")
       (EmergencyAssistancePayload.mk "" "Flat tyre" "Ring road") fleet
     = (Err (NotFound "Vehicle not found"), fleet)
  /\ First.createBooking (sample_env 30 "b-1") (trip "v-1" "" 30) fleet
     = (Err (NotFound "Driver not found"), fleet).
Proof.
  destruct (@create_checks_fields_not_references sample_host)
    as (Hfields & Hbooking & Hfuel & Hmaintenance & Hassistance & Hdriver).
  split; [|split; [|split; [|split; [|split]]]].
  - apply Hfields. simpl. right. left. reflexivity.
  - apply (Hbooking (sample_env 30 "b-1") (trip "" "d-1" 30) fleet).
    + discriminate.
    + discriminate.
    + reflexivity.
    + reflexivity.
    + repeat constructor.
    + reflexivity.
  - apply (Hfuel (sample_env 20 "f-1") (fuel "" "5.5") fleet).
    + reflexivity.
    + reflexivity.
    + repeat constructor.
    + reflexivity.
  - apply (Hmaintenance (sample_env 40 "m-1")
             (MaintenancePayload.mk "" "Oil change" 500) fleet).
    + discriminate.
    + reflexivity.
    + reflexivity.
    + repeat constructor.
    + reflexivity.
  - apply (Hassistance (sample_env 40 "e-1")
             (EmergencyAssistancePayload.mk "" "Flat tyre" "Ring road") fleet).
    + discriminate.
    + discriminate.
    + reflexivity.
    + repeat constructor.
    + reflexivity.
  - apply (Hdriver (sample_env 30 "b-1") (trip "v-1" "" 30) fleet stored_van).
    + discriminate.
    + discriminate.
    + reflexivity.
    + repeat constructor.
    + reflexivity.
    + reflexivity.
    + reflexivity.
    + repeat constructor.
    + reflexivity.
Defined.

(** C7, at a booking of the van in maintenance. *)
Lemma error_leaves_stores_witness :
  snd (exec (sample_env 30 "b-1")
         (OnFirst (First.CreateBooking (trip "v-1" "d-1" 30)))
         fleet_in_maintenance)
  = fleet_in_maintenance.
Proof.
  apply (error_leaves_stores (sample_env 30 "b-1")
           (OnFirst (First.CreateBooking (trip "v-1" "d-1" 30)))
           fleet_in_maintenance).
  reflexivity.
Defined.

(** C8, at a van without seats. *)
Lemma createVehicle_no_capacity_witness :
  First.createVehicle (sample_env 30 "v-2")
    (VehiclePayload.mk "ABC-2" "Van" 0 "Depot") fleet
  = (Err (InvalidPayload "Missing or invalid vehicle data"), fleet)
  /\ Second.createVehicle (sample_env 30 "v-2")
       (VehiclePayload.mk "ABC-2" "Van" 0 "Depot") fleet
     = (Err (InvalidPayload "Missing required fields"), fleet).
Proof.
  apply (createVehicle_no_capacity (sample_env 30 "v-2")
           (VehiclePayload.mk "ABC-2" "Van" 0 "Depot") fleet).
  simpl. lia.
Defined.

(** C9, at a fuel record and at a booking of the van. *)
Lemma vehicles_only_written_by_vehicle_calls_witness :
  vehicleStorage
    (snd (exec (sample_env 20 "f-1")
            (OnFirst (First.RecordFuelConsumption (fuel "v-1" "5.5"))) fleet))
  = vehicleStorage fleet
  /\ get "v-1"
       (vehicleStorage
          (snd (First.createBooking (sample_env 30 "b-1")
                  (trip "v-1" "d-1" 30) fleet)))
     = Some stored_van
  /\ Vehicle.status stored_van = VehicleStatus.Available.
Proof.
  destruct (@vehicles_only_written_by_vehicle_calls sample_host)
    as (Hframe & Hbooking).
  split.
  - apply Hframe. reflexivity.
  - edestruct (Hbooking (sample_env 30 "b-1") (trip "v-1" "d-1" 30) fleet)
      as (Hst & _ & Hvan).
    + left. reflexivity.
    + apply Hvan.
      * repeat constructor.
      * reflexivity.
Defined.

(** C10, at the van sent to maintenance. *)
Lemma updateVehicleStatus_touches_status_only_witness :
  exists before after updated,
    vehicleStorage fleet = before ++ ("v-1", stored_van) :: after
    /\ vehicleStorage
         (snd (First.updateVehicleStatus "v-1" VehicleStatus.Maintenance fleet))
       = before ++ ("v-1", updated) :: after
    /\ Vehicle.registration_number updated = "ABC-1".
Proof.
  destruct (updateVehicleStatus_touches_status_only "v-1"
              VehicleStatus.Maintenance fleet stored_van eq_refl)
    as (before & after & updated & Hm & _ & Hst & _ & Hreg & _).
  exists before, after, updated.
  rewrite Hst. repeat split; assumption.
Defined.

End Samples.

(** * Further properties *)

(** ** More on the stable map *)

Section MoreStoreFacts.
Context `{Host} {V : Type}.
Implicit Types (k : text) (v : V) (m : StableBTreeMap V).

Lemma get_remove_eq k m : get k (remove k m) = None.
Proof.
  unfold remove. induction m as [|[k' v'] rest IH]; simpl; [reflexivity|].
  destruct (k =? k')%string eqn:E; simpl; [assumption|].
  now rewrite E.
Qed.

Lemma get_remove_ne k k0 m : k0 <> k -> get k0 (remove k m) = get k0 m.
Proof.
  intros Hne. unfold remove.
  induction m as [|[k' v'] rest IH]; simpl; [reflexivity|].
  destruct (k =? k')%string eqn:E; simpl.
  - apply String.eqb_eq in E. subst k'.
    apply String.eqb_neq in Hne. now rewrite Hne.
  - now rewrite IH.
Qed.

Lemma get_None_keys k m : get k m = None <-> ~ In k (keys m).
Proof.
  unfold keys. induction m as [|[k' v'] rest IH]; simpl; [tauto|].
  destruct (k =? k')%string eqn:E.
  - apply String.eqb_eq in E. subst. split; [discriminate|tauto].
  - apply String.eqb_neq in E. rewrite IH. split.
    + intros Hn [Heq|Hin]; [congruence|contradiction].
    + tauto.
Qed.

Lemma keys_replace k v m : keys (replace k v m) = keys m.
Proof.
  unfold keys. induction m as [|[k' v'] rest IH]; simpl; [reflexivity|].
  destruct (k =? k')%string eqn:E; simpl.
  - apply String.eqb_eq in E. now subst.
  - now rewrite IH.
Qed.

Lemma keys_place_In k v m k0 : In k0 (keys (place k v m)) <-> k0 = k \/ In k0 (keys m).
Proof.
  unfold keys. induction m as [|[k' v'] rest IH]; simpl.
  - intuition auto.
  - destruct (key_lt k k'); simpl; [intuition auto|].
    rewrite IH. intuition auto.
Qed.

Lemma NoDup_keys_place k v m :
  ~ In k (keys m) -> NoDup (keys m) -> NoDup (keys (place k v m)).
Proof.
  induction m as [|[k' v'] rest IH]; simpl; intros Hn Hnd.
  - constructor; [tauto|constructor].
  - destruct (key_lt k k'); simpl.
    + constructor; assumption.
    + inversion Hnd as [|? ? Hk' Hrest]; subst.
      constructor.
      * intros Hin. apply (keys_place_In k v rest k') in Hin.
        destruct Hin as [->|Hin]; [apply Hn; now left|contradiction].
      * apply IH; [intros Hin; apply Hn; now right|assumption].
Qed.

Lemma NoDup_keys_insert k v m : NoDup (keys m) -> NoDup (keys (insert k v m)).
Proof.
  intros Hnd. unfold insert. destruct (get k m) eqn:E.
  - now rewrite keys_replace.
  - apply NoDup_keys_place; [now apply get_None_keys|assumption].
Qed.

Lemma NoDup_keys_remove k m : NoDup (keys m) -> NoDup (keys (remove k m)).
Proof.
  unfold keys, remove. induction m as [|[k' v'] rest IH]; simpl; intros Hnd.
  - constructor.
  - inversion Hnd as [|? ? Hk' Hrest]; subst.
    destruct (negb (k =? k')%string); simpl; [|now apply IH].
    constructor; [|now apply IH].
    intros Hin. apply Hk'. apply in_map_iff in Hin as ([k1 v1] & Heq & Hin).
    apply filter_In in Hin as [Hin _]. simpl in Heq. subst k1.
    apply in_map_iff. now exists (k', v1).
Qed.

Lemma get_insert_stays k k0 v m :
  get k0 m <> None -> get k0 (insert k v m) <> None.
Proof.
  intros Hg. destruct (String.eqb_spec k0 k) as [->|Hne].
  - rewrite get_insert_eq. discriminate.
  - now rewrite get_insert_ne.
Qed.

Lemma insert_insert k v1 v2 m :
  insert k v2 (insert k v1 m) = insert k v2 m.
Proof.
  unfold insert at 1. rewrite get_insert_eq.
  unfold insert. destruct (get k m) eqn:E.
  - clear E. induction m as [|[k' v'] rest IH]; simpl; [reflexivity|].
    destruct (k =? k')%string eqn:E; simpl.
    + now rewrite String.eqb_refl.
    + now rewrite E, IH.
  - induction m as [|[k' v'] rest IH]; simpl.
    + now rewrite String.eqb_refl.
    + simpl in E. destruct (k =? k')%string eqn:Ek; [discriminate|].
      destruct (key_lt k k') eqn:Elt; simpl.
      * now rewrite String.eqb_refl.
      * rewrite Ek. (* the overwrite finds the placed entry further on *)
        rewrite (IH E). reflexivity.
Qed.

End MoreStoreFacts.

(** ** Which store a call writes, and what stays in the stores *)

(** Splits a statement into its parts, taking in what each part assumes. *)
Ltac parts :=
  repeat match goal with
         | |- _ /\ _ => split
         | |- _ -> _ => intro
         end.

Section Writes.
Context `{Host}.

(** X1. A call leaves every store but the one of its own entity exactly as
    it was: driver calls write the driver store only, vehicle calls the
    vehicle store only, and so on for the seven stores; a query writes
    none. *)
Theorem call_writes_own_store_only (env : Env) (c : Call) (st : State) :
  (written c <> Some Drivers ->
   driverStorage (snd (exec env c st)) = driverStorage st)
  /\ (written c <> Some Vehicles ->
      vehicleStorage (snd (exec env c st)) = vehicleStorage st)
  /\ (written c <> Some Bookings ->
      bookingStorage (snd (exec env c st)) = bookingStorage st)
  /\ (written c <> Some FuelConsumptions ->
      fuelConsumptionStorage (snd (exec env c st)) = fuelConsumptionStorage st)
  /\ (written c <> Some Maintenances ->
      maintenanceStorage (snd (exec env c st)) = maintenanceStorage st)
  /\ (written c <> Some EmergencyAssistances ->
      emergencyAssistanceStorage (snd (exec env c st))
      = emergencyAssistanceStorage st)
  /\ (written c <> Some Routes ->
      routeStorage (snd (exec env c st)) = routeStorage st).
Proof.
  destruct c as [op|op]; destruct op; simpl; open_call; simpl;
    branches; parts;
    first [ reflexivity
          | exfalso; match goal with Hw : _ <> _ |- _ => apply Hw end;
            reflexivity ].
Qed.

(** X2. Bookings, fuel records, maintenance records, assistance requests
    and routes are never removed: a key one of these stores holds is still
    held after any call, and its record is the same unless the call was
    handed that very key as its new identifier. *)
Theorem records_without_delete_persist (env : Env) (c : Call) (st : State)
  (k : text) :
  (get k (bookingStorage st) <> None ->
   get k (bookingStorage (snd (exec env c st))) <> None
   /\ (uuidv4 env <> k ->
       get k (bookingStorage (snd (exec env c st)))
       = get k (bookingStorage st)))
  /\ (get k (fuelConsumptionStorage st) <> None ->
      get k (fuelConsumptionStorage (snd (exec env c st))) <> None
      /\ (uuidv4 env <> k ->
          get k (fuelConsumptionStorage (snd (exec env c st)))
          = get k (fuelConsumptionStorage st)))
  /\ (get k (maintenanceStorage st) <> None ->
      get k (maintenanceStorage (snd (exec env c st))) <> None
      /\ (uuidv4 env <> k ->
          get k (maintenanceStorage (snd (exec env c st)))
          = get k (maintenanceStorage st)))
  /\ (get k (emergencyAssistanceStorage st) <> None ->
      get k (emergencyAssistanceStorage (snd (exec env c st))) <> None
      /\ (uuidv4 env <> k ->
          get k (emergencyAssistanceStorage (snd (exec env c st)))
          = get k (emergencyAssistanceStorage st)))
  /\ (get k (routeStorage st) <> None ->
      get k (routeStorage (snd (exec env c st))) <> None
      /\ (uuidv4 env <> k ->
          get k (routeStorage (snd (exec env c st)))
          = get k (routeStorage st))).
Proof.
  destruct c as [op|op]; destruct op; simpl; open_call; simpl;
    branches; parts;
    first [ assumption
          | reflexivity
          | apply get_insert_stays; assumption
          | apply get_insert_ne; congruence ].
Qed.

(** X3. A driver or a vehicle leaves its store through [deleteDriver] or
    [deleteVehicle] on its own key and through no other call. *)
Theorem drivers_and_vehicles_leave_by_delete_only (env : Env) (c : Call)
  (st : State) (k : text) :
  (c <> OnFirst (First.DeleteDriver k) ->
   get k (driverStorage st) <> None ->
   get k (driverStorage (snd (exec env c st))) <> None)
  /\ (c <> OnFirst (First.DeleteVehicle k) ->
      get k (vehicleStorage st) <> None ->
      get k (vehicleStorage (snd (exec env c st))) <> None).
Proof.
  destruct c as [op|op]; destruct op; simpl; open_call; simpl;
    branches; parts;
    first [ assumption
          | apply get_insert_stays; assumption
          | rewrite get_remove_ne; [assumption|congruence] ].
Qed.

Lemma exec_unique_keys (env : Env) (c : Call) (st : State) :
  unique_keys st -> unique_keys (snd (exec env c st)).
Proof.
  unfold unique_keys.
  intros (Hd & Hv & Hb & Hf & Hm & He & Hr).
  destruct c as [op|op]; destruct op; simpl; open_call; simpl;
    try (repeat split; assumption);
    branches;
    repeat split;
    first [ assumption
          | apply NoDup_keys_remove; assumption
          | apply NoDup_keys_insert; assumption ].
Qed.

(** X4. Whatever calls were made since the canister was installed, no
    store holds two entries under one key, and every record is stored
    under the [id] it carries. *)
Theorem reachable_stores_unique_and_keyed (calls : list (Env * Call)) :
  unique_keys (exec_all calls empty_state)
  /\ well_keyed (exec_all calls empty_state).
Proof.
  split; [|apply exec_all_well_keyed, empty_state_well_keyed].
  assert (Hgen : forall st, unique_keys st -> unique_keys (exec_all calls st)).
  { induction calls as [|[env c] rest IH]; intros st Hst; simpl.
    - assumption.
    - apply IH. now apply exec_unique_keys. }
  apply Hgen. unfold unique_keys. simpl. repeat split; constructor.
Qed.

End Writes.

(** ** Drivers *)

Section MoreDrivers.
Context `{Host}.

(** X5. [createDriver] accepts every payload with the three fields filled
    in, whatever the stores hold (a licence number already stored is not
    looked for).  The driver it returns carries the identifier and the time
    of the call, the caller as owner and zero points; [getDriverById] then
    returns that driver, and every other key of the driver store maps to
    what it mapped to before. *)
Theorem createDriver_stores_driver (env : Env) (payload : DriverPayload.t)
  (st : State) :
  DriverPayload.name payload <> "" ->
  DriverPayload.license_number payload <> "" ->
  DriverPayload.contact_info payload <> "" ->
  exists st',
    let driver :=
      {| Driver.id := uuidv4 env;
         Driver.owner := caller env;
         Driver.name := DriverPayload.name payload;
         Driver.license_number := DriverPayload.license_number payload;
         Driver.contact_info := DriverPayload.contact_info payload;
         Driver.points := 0;
         Driver.created_at := time env |} in
    First.createDriver env payload st = (Ok driver, st')
    /\ Second.createDriver env payload st = (Ok driver, st')
    /\ Second.getDriverById (uuidv4 env) st' = Ok driver
    /\ (validateId (uuidv4 env) = true ->
        First.getDriverById (uuidv4 env) st' = Ok driver)
    /\ (forall k, k <> uuidv4 env ->
                  get k (driverStorage st') = get k (driverStorage st)).
Proof.
  intros Hn Hl Hc.
  apply falsy_false in Hn. apply falsy_false in Hl. apply falsy_false in Hc.
  unfold First.createDriver, Second.createDriver. rewrite Hn, Hl, Hc.
  cbn [orb]. eexists. cbv zeta.
  split; [reflexivity|]. split; [reflexivity|].
  unfold Second.getDriverById, First.getDriverById. cbn [driverStorage with_driverStorage].
  rewrite get_insert_eq. split; [reflexivity|]. split.
  - intros ->. reflexivity.
  - intros k Hk. now apply get_insert_ne.
Qed.

(** X6. [deleteDriver] on a stored driver removes that key and nothing
    else: [getDriverById] and a second [deleteDriver] on it answer
    NotFound, the other drivers are where they were, and the bookings that
    name the driver stay listed under it. *)
Theorem deleteDriver_removes_one_driver (driverId : text) (st : State)
  (driver : Driver.t) :
  validateId driverId = true ->
  get driverId (driverStorage st) = Some driver ->
  exists st',
    First.deleteDriver driverId st
    = (Ok (Success "Driver deleted successfully"), st')
    /\ First.getDriverById driverId st' = Err (NotFound "Driver not found")
    /\ First.deleteDriver driverId st'
       = (Err (NotFound "Driver not found"), st')
    /\ (forall k, k <> driverId ->
                  get k (driverStorage st') = get k (driverStorage st))
    /\ Second.getBookingByDriverId driverId st'
       = Second.getBookingByDriverId driverId st.
Proof.
  intros Hid Hg.
  unfold First.deleteDriver, First.getDriverById. rewrite Hid, Hg.
  cbn [negb]. eexists. split; [reflexivity|].
  cbn [driverStorage with_driverStorage]. rewrite get_remove_eq.
  repeat split.
  intros k Hk. now apply get_remove_ne.
Qed.

End MoreDrivers.

(** ** Vehicles *)

Section MoreVehicles.
Context `{Host}.

(** X7. [createVehicle] accepts every payload with its three texts filled
    in and a capacity above zero, whatever the stores hold.  The vehicle it
    returns is Available; [getVehicleById] then returns it, and every other
    key of the vehicle store maps to what it mapped to before. *)
Theorem createVehicle_stores_available_vehicle (env : Env)
  (payload : VehiclePayload.t) (st : State) :
  VehiclePayload.registration_number payload <> "" ->
  VehiclePayload.model payload <> "" ->
  (0 < VehiclePayload.capacity payload)%N ->
  VehiclePayload.location payload <> "" ->
  exists st',
    let vehicle :=
      {| Vehicle.id := uuidv4 env;
         Vehicle.registration_number := VehiclePayload.registration_number payload;
         Vehicle.model := VehiclePayload.model payload;
         Vehicle.capacity := VehiclePayload.capacity payload;
         Vehicle.status := VehicleStatus.Available;
         Vehicle.location := VehiclePayload.location payload;
         Vehicle.created_at := time env |} in
    First.createVehicle env payload st = (Ok vehicle, st')
    /\ Second.createVehicle env payload st = (Ok vehicle, st')
    /\ Second.getVehicleById (uuidv4 env) st' = Ok vehicle
    /\ (validateId (uuidv4 env) = true ->
        First.getVehicleById (uuidv4 env) st' = Ok vehicle)
    /\ (forall k, k <> uuidv4 env ->
                  get k (vehicleStorage st') = get k (vehicleStorage st)).
Proof.
  intros Hr Hm Hcap Hl.
  apply falsy_false in Hr. apply falsy_false in Hm. apply falsy_false in Hl.
  assert (Hle : (VehiclePayload.capacity payload <=? 0)%N = false)
    by (apply N.leb_gt; assumption).
  assert (Hz : (VehiclePayload.capacity payload =? 0)%N = false)
    by (apply N.eqb_neq; lia).
  unfold First.createVehicle, Second.createVehicle.
  rewrite Hr, Hm, Hl, Hle, Hz. cbn [orb]. eexists. cbv zeta.
  split; [reflexivity|]. split; [reflexivity|].
  unfold Second.getVehicleById, First.getVehicleById.
  cbn [vehicleStorage with_vehicleStorage].
  rewrite get_insert_eq. split; [reflexivity|]. split.
  - intros ->. reflexivity.
  - intros k Hk. now apply get_insert_ne.
Qed.

(** X8. [deleteVehicle] does not cascade.  After a stored vehicle is
    deleted, [getVehicleById] answers NotFound and a new booking for it is
    turned down with NotFound, while the bookings that name it are listed
    as before and the fuel, maintenance and assistance stores are the
    same. *)
Theorem deleteVehicle_does_not_cascade (vehicleId : text) (st : State)
  (vehicle : Vehicle.t) :
  validateId vehicleId = true ->
  keyed Vehicle.id (vehicleStorage st) ->
  get vehicleId (vehicleStorage st) = Some vehicle ->
  exists st',
    First.deleteVehicle vehicleId st
    = (Ok (Success "Vehicle deleted successfully"), st')
    /\ First.getVehicleById vehicleId st' = Err (NotFound "Vehicle not found")
    /\ First.getBookingByVehicleId vehicleId st'
       = First.getBookingByVehicleId vehicleId st
    /\ fuelConsumptionStorage st' = fuelConsumptionStorage st
    /\ maintenanceStorage st' = maintenanceStorage st
    /\ emergencyAssistanceStorage st' = emergencyAssistanceStorage st
    /\ (forall env payload,
           BookingPayload.vehicle_id payload = vehicleId ->
           BookingPayload.from_location payload <> "" ->
           BookingPayload.to_location payload <> "" ->
           (time env < BookingPayload.start_time payload)%N ->
           First.createBooking env payload st'
           = (Err (NotFound "Vehicle not found"), st')).
Proof.
  intros Hid Hk Hg.
  unfold First.deleteVehicle, First.getVehicleById. rewrite Hid, Hg.
  cbn [negb]. eexists. split; [reflexivity|].
  cbn [vehicleStorage with_vehicleStorage]. rewrite get_remove_eq.
  repeat split.
  intros env payload Hv Hf Ht Hs.
  unfold First.createBooking.
  rewrite (booking_fields_pass env payload Hf Ht Hs), Hv.
  cbn [vehicleStorage with_vehicleStorage].
  rewrite (keyed_scan_None Vehicle.id vehicleId
             (remove vehicleId (vehicleStorage st))
             (keyed_remove Vehicle.id vehicleId _ Hk)
             (get_remove_eq vehicleId _)).
  reflexivity.
Qed.

Lemma set_status_twice (vehicle : Vehicle.t) (s1 s2 : VehicleStatus.t) :
  First.set_status (First.set_status vehicle s1) s2
  = First.set_status vehicle s2.
Proof. reflexivity. Qed.

(** X9. A status written by [updateVehicleStatus] is the status
    [getVehicleById] reads back, on the vehicle that was stored with its
    other fields as they were; and of two updates in a row the second alone
    counts: its status is the one read back, and the stores end as if only
    it had been made. *)
Theorem updateVehicleStatus_read_back_last_wins (vehicleId : text)
  (s1 s2 : VehicleStatus.t) (st : State) (vehicle : Vehicle.t) :
  validateId vehicleId = true ->
  get vehicleId (vehicleStorage st) = Some vehicle ->
  First.getVehicleById vehicleId
    (snd (First.updateVehicleStatus vehicleId s1 st))
  = Ok {| Vehicle.id := Vehicle.id vehicle;
          Vehicle.registration_number := Vehicle.registration_number vehicle;
          Vehicle.model := Vehicle.model vehicle;
          Vehicle.capacity := Vehicle.capacity vehicle;
          Vehicle.status := s1;
          Vehicle.location := Vehicle.location vehicle;
          Vehicle.created_at := Vehicle.created_at vehicle |}
  /\ First.getVehicleById vehicleId
       (snd (First.updateVehicleStatus vehicleId s2
               (snd (First.updateVehicleStatus vehicleId s1 st))))
     = Ok {| Vehicle.id := Vehicle.id vehicle;
             Vehicle.registration_number := Vehicle.registration_number vehicle;
             Vehicle.model := Vehicle.model vehicle;
             Vehicle.capacity := Vehicle.capacity vehicle;
             Vehicle.status := s2;
             Vehicle.location := Vehicle.location vehicle;
             Vehicle.created_at := Vehicle.created_at vehicle |}
  /\ snd (First.updateVehicleStatus vehicleId s2
            (snd (First.updateVehicleStatus vehicleId s1 st)))
     = snd (First.updateVehicleStatus vehicleId s2 st).
Proof.
  intros Hid Hg.
  assert (Hone : forall s,
             snd (First.updateVehicleStatus vehicleId s st)
             = with_vehicleStorage
                 (insert vehicleId (First.set_status vehicle s)
                         (vehicleStorage st)) st).
  { intros s. unfold First.updateVehicleStatus. now rewrite Hid, Hg. }
  assert (Htwo : snd (First.updateVehicleStatus vehicleId s2
                        (snd (First.updateVehicleStatus vehicleId s1 st)))
                 = snd (First.updateVehicleStatus vehicleId s2 st)).
  { rewrite (Hone s1), (Hone s2). unfold First.updateVehicleStatus.
    rewrite Hid. cbn [negb vehicleStorage with_vehicleStorage].
    rewrite get_insert_eq. cbn [snd]. unfold with_vehicleStorage. cbn.
    now rewrite insert_insert, set_status_twice. }
  assert (Hread : forall s,
             First.getVehicleById vehicleId
               (snd (First.updateVehicleStatus vehicleId s st))
             = Ok (First.set_status vehicle s)).
  { intros s. rewrite (Hone s). unfold First.getVehicleById.
    rewrite Hid. cbn [negb vehicleStorage with_vehicleStorage].
    now rewrite get_insert_eq. }
  split; [apply Hread|]. split; [|exact Htwo].
  rewrite Htwo. apply Hread.
Qed.

(** X10. What [updateVehicleStatus] writes decides the next booking of the
    first handler set: for a payload that passes the field checks and names
    a stored driver, [createBooking] succeeds when the vehicle was set to
    Available and answers Error when it was set to Booked or to
    Maintenance. *)
Theorem updateVehicleStatus_decides_booking (env : Env)
  (payload : BookingPayload.t) (status : VehicleStatus.t) (st : State)
  (vehicle : Vehicle.t) (driver : Driver.t) :
  validateId (BookingPayload.vehicle_id payload) = true ->
  keyed Vehicle.id (vehicleStorage st) ->
  get (BookingPayload.vehicle_id payload) (vehicleStorage st) = Some vehicle ->
  keyed Driver.id (driverStorage st) ->
  get (BookingPayload.driver_id payload) (driverStorage st) = Some driver ->
  BookingPayload.from_location payload <> "" ->
  BookingPayload.to_location payload <> "" ->
  (time env < BookingPayload.start_time payload)%N ->
  let st1 :=
    snd (First.updateVehicleStatus (BookingPayload.vehicle_id payload)
           status st) in
  (status = VehicleStatus.Available ->
   exists booking st2,
     First.createBooking env payload st1 = (Ok booking, st2)
     /\ Booking.status booking = "pending")
  /\ (status <> VehicleStatus.Available ->
      First.createBooking env payload st1
      = (Err (Error "Vehicle is not available"), st1)).
Proof.
  intros Hid Hkv Hgv Hkd Hgd Hf Ht Hs st1.
  assert (Hst1 : st1 = with_vehicleStorage
                         (insert (BookingPayload.vehicle_id payload)
                                 (First.set_status vehicle status)
                                 (vehicleStorage st)) st).
  { unfold st1, First.updateVehicleStatus. now rewrite Hid, Hgv. }
  assert (Hkv1 : keyed Vehicle.id (vehicleStorage st1)).
  { rewrite Hst1. cbn [vehicleStorage with_vehicleStorage].
    apply keyed_insert; [assumption|]. cbn.
    eapply keyed_get; eassumption. }
  assert (Hgv1 : get (BookingPayload.vehicle_id payload) (vehicleStorage st1)
                 = Some (First.set_status vehicle status)).
  { rewrite Hst1. cbn [vehicleStorage with_vehicleStorage].
    apply get_insert_eq. }
  assert (Hd1 : driverStorage st1 = driverStorage st)
    by (rewrite Hst1; reflexivity).
  destruct (keyed_scan_Some Vehicle.id _ _ _ Hkv1 Hgv1) as [others Hscan].
  split.
  - intros ->.
    rewrite <- Hd1 in Hkd, Hgd.
    destruct (First_createBooking_books env payload st1 _ driver
                Hf Ht Hs Hkv1 Hgv1 eq_refl Hkd Hgd)
      as (booking & st2 & _ & Hb & Hp & _).
    eauto.
  - intros Hna. unfold First.createBooking.
    rewrite (booking_fields_pass env payload Hf Ht Hs), Hscan.
    destruct status; [contradiction|reflexivity..].
Qed.

End MoreVehicles.

(** ** Bookings, again *)

Section MoreBookings.
Context `{Host}.

(** X11. [createBooking] looks for the vehicle before it looks for the
    driver.  With the field checks passed, a vehicle the store does not
    hold gives NotFound for the vehicle whoever the driver is, in both
    handler sets; in the first set a stored Available vehicle with a driver
    the store does not hold gives NotFound for the driver.  Nothing is
    written in either case. *)
Theorem createBooking_vehicle_before_driver (env : Env)
  (payload : BookingPayload.t) (st : State) :
  BookingPayload.from_location payload <> "" ->
  BookingPayload.to_location payload <> "" ->
  (time env < BookingPayload.start_time payload)%N ->
  keyed Vehicle.id (vehicleStorage st) ->
  (get (BookingPayload.vehicle_id payload) (vehicleStorage st) = None ->
   First.createBooking env payload st
   = (Err (NotFound "Vehicle not found"), st)
   /\ Second.createBooking env payload st
      = (Err (NotFound "Vehicle not found"), st))
  /\ (forall vehicle,
         get (BookingPayload.vehicle_id payload) (vehicleStorage st)
         = Some vehicle ->
         Vehicle.status vehicle = VehicleStatus.Available ->
         keyed Driver.id (driverStorage st) ->
         get (BookingPayload.driver_id payload) (driverStorage st) = None ->
         First.createBooking env payload st
         = (Err (NotFound "Driver not found"), st)).
Proof.
  intros Hf Ht Hs Hk.
  unfold First.createBooking, Second.createBooking.
  rewrite (booking_fields_pass env payload Hf Ht Hs). split.
  - intros Hg. rewrite (keyed_scan_None Vehicle.id _ _ Hk Hg).
    split; reflexivity.
  - intros vehicle Hg Hav Hkd Hgd.
    destruct (keyed_scan_Some Vehicle.id _ _ _ Hk Hg) as [others Hscan].
    now rewrite Hscan, Hav, (keyed_scan_None Driver.id _ _ Hkd Hgd).
Qed.

Lemma Second_run_keeps_bookings (env : Env) (op : Second.Op) (st : State) :
  bookingStorage (snd (Second.run env op st)) = bookingStorage st.
Proof.
  destruct op; simpl; open_call; simpl; branches; reflexivity.
Qed.

(** X12. The second handler set never stores a booking.  After any
    sequence of its calls on a freshly installed canister the booking
    store is empty, and [getBookings], [getBookingById],
    [getBookingByVehicleId] and [getBookingByDriverId] answer NotFound. *)
Theorem second_set_never_stores_a_booking (calls : list (Env * Call))
  (id : text) :
  on_second calls ->
  bookingStorage (exec_all calls empty_state) = []
  /\ Second.getBookings (exec_all calls empty_state)
     = Err (NotFound "No bookings found")
  /\ Second.getBookingById id (exec_all calls empty_state)
     = Err (NotFound "Booking not found")
  /\ Second.getBookingByVehicleId id (exec_all calls empty_state)
     = Err (NotFound "No bookings found")
  /\ Second.getBookingByDriverId id (exec_all calls empty_state)
     = Err (NotFound "No bookings found").
Proof.
  intros Hcalls.
  assert (Hb : bookingStorage (exec_all calls empty_state) = []).
  { change [] with (bookingStorage empty_state).
    generalize empty_state. induction Hcalls as [|[env c] rest Hc _ IH].
    - reflexivity.
    - intros st. simpl. rewrite IH.
      destruct c as [op|op]; [destruct Hc|].
      apply Second_run_keeps_bookings. }
  unfold Second.getBookings, Second.getBookingById,
    Second.getBookingByVehicleId, Second.getBookingByDriverId.
  rewrite Hb. repeat split.
Qed.

End MoreBookings.

(** ** Records about a vehicle *)

Section VehicleRecords.
Context `{Host}.

(** X13. On a vehicle store keyed by identifier, looking the vehicle up by
    key, as the first handler set does, and scanning for its [id], as the
    second does, come to the same: [recordFuelConsumption],
    [scheduleMaintenance] and [requestEmergencyAssistance] of the two sets
    return the same answer and the same stores. *)
Theorem key_lookup_and_scan_agree (env : Env) (st : State) :
  keyed Vehicle.id (vehicleStorage st) ->
  (forall payload,
      First.recordFuelConsumption env payload st
      = Second.recordFuelConsumption env payload st)
  /\ (forall payload,
         First.scheduleMaintenance env payload st
         = Second.scheduleMaintenance env payload st)
  /\ (forall payload,
         First.requestEmergencyAssistance env payload st
         = Second.requestEmergencyAssistance env payload st).
Proof.
  intros Hk.
  assert (Hscan : forall k,
             match get k (vehicleStorage st) with
             | Some _ =>
                 exists v others,
                   filter (fun x => (Vehicle.id x =? k)%string)
                          (values (vehicleStorage st)) = v :: others
             | None =>
                 filter (fun x => (Vehicle.id x =? k)%string)
                        (values (vehicleStorage st)) = []
             end).
  { intros k. destruct (get k (vehicleStorage st)) as [v|] eqn:E.
    - destruct (keyed_scan_Some Vehicle.id _ _ _ Hk E) as [others Hs]. eauto.
    - now apply keyed_scan_None. }
  repeat split; intros payload;
    unfold First.recordFuelConsumption, Second.recordFuelConsumption,
      First.scheduleMaintenance, Second.scheduleMaintenance,
      First.requestEmergencyAssistance, Second.requestEmergencyAssistance;
    match goal with
    | |- context [get ?k (vehicleStorage st)] =>
        specialize (Hscan k); destruct (get k (vehicleStorage st))
    end;
    [destruct Hscan as (v & others & ->)|rewrite Hscan| destruct Hscan as (v & others & ->)|rewrite Hscan| destruct Hscan as (v & others & ->)|rewrite Hscan];
    reflexivity.
Qed.

Lemma minus_literal_not_positive (r : text) :
  read_unsigned true r = NaN \/ le_zero (read_unsigned true r) = true.
Proof.
  unfold read_unsigned.
  destruct (prefix "Infinity" r); [right; reflexivity|].
  destruct (read_digits r 0 0) as [[ip ni] rest].
  destruct rest as [|a rest'].
  - destruct ni; [left|right]; reflexivity.
  - repeat match goal with
           | |- context [match ?x with _ => _ end] =>
               destruct x; try (left; reflexivity); try (right; reflexivity)
           end.
Qed.

(** X14. An amount whose first character after leading white space is a
    minus sign is never recorded as a number: when [parseFloat] reads a
    number from it, [recordFuelConsumption] answers InvalidPayload and
    writes nothing, in both handler sets. *)
Theorem recordFuelConsumption_rejects_minus (env : Env)
  (payload : FuelConsumptionPayload.t) (st : State) (r : text) :
  trimStart (FuelConsumptionPayload.amount payload) = String "-" r ->
  parseFloat (FuelConsumptionPayload.amount payload) <> NaN ->
  First.recordFuelConsumption env payload st
  = (Err (InvalidPayload "Amount must be greater than zero"), st)
  /\ Second.recordFuelConsumption env payload st
     = (Err (InvalidPayload "Amount must be greater than zero"), st).
Proof.
  intros Ht Hn.
  assert (Hp : parseFloat (FuelConsumptionPayload.amount payload)
               = read_unsigned true r).
  { unfold parseFloat. rewrite Ht. reflexivity. }
  unfold First.recordFuelConsumption, Second.recordFuelConsumption.
  rewrite Hp in *.
  destruct (minus_literal_not_positive r) as [Hnan|Hle]; [contradiction|].
  rewrite Hle. split; reflexivity.
Qed.

Lemma listed_after_insert {V : Type} (k : text) (v : V)
  (m : StableBTreeMap V) (e : Message) :
  exists l,
    match values (insert k v m) with
    | [] => Err e
    | x :: rest => Ok (x :: rest)
    end = Ok l
    /\ In v l.
Proof.
  pose proof (In_values_insert k v m) as Hin.
  destruct (values (insert k v m)) as [|x rest]; [destruct Hin|].
  exists (x :: rest). split; [reflexivity|assumption].
Qed.

(** X15. [recordFuelConsumption] for a stored vehicle and an amount that
    passes the amount check stores the payload under the identifier of the
    call, amount and date as they were sent, and [getFuelConsumptions]
    then lists that record. *)
Theorem recordFuelConsumption_stores_payload (env : Env)
  (payload : FuelConsumptionPayload.t) (st : State) (vehicle : Vehicle.t) :
  le_zero (parseFloat (FuelConsumptionPayload.amount payload)) = false ->
  keyed Vehicle.id (vehicleStorage st) ->
  get (FuelConsumptionPayload.vehicle_id payload) (vehicleStorage st)
  = Some vehicle ->
  exists st' records,
    let record :=
      {| FuelConsumption.id := uuidv4 env;
         FuelConsumption.vehicle_id := FuelConsumptionPayload.vehicle_id payload;
         FuelConsumption.amount := FuelConsumptionPayload.amount payload;
         FuelConsumption.date := FuelConsumptionPayload.date payload |} in
    First.recordFuelConsumption env payload st = (Ok record, st')
    /\ Second.recordFuelConsumption env payload st = (Ok record, st')
    /\ Second.getFuelConsumptions st' = Ok records
    /\ In record records.
Proof.
  intros Hamount Hk Hg.
  destruct (keyed_scan_Some Vehicle.id _ _ _ Hk Hg) as [others Hscan].
  unfold First.recordFuelConsumption, Second.recordFuelConsumption,
    Second.getFuelConsumptions.
  rewrite Hamount, Hg, Hscan. cbv zeta.
  match goal with
  | |- context [insert ?k ?v ?m] =>
      destruct (listed_after_insert k v m
                  (NotFound "No fuel consumption records found"))
        as (l & Hl & Hin)
  end.
  eexists. exists l. split; [reflexivity|]. split; [reflexivity|].
  split; assumption.
Qed.

(** X16. [scheduleMaintenance] for a stored vehicle, with a description
    and a date after the time of the call, stores a pending record stamped
    with that time, whatever the status of the vehicle, and
    [getMaintenances] then lists it. *)
Theorem scheduleMaintenance_stores_pending (env : Env)
  (payload : MaintenancePayload.t) (st : State) (vehicle : Vehicle.t) :
  MaintenancePayload.description payload <> "" ->
  (time env < MaintenancePayload.scheduled_date payload)%N ->
  keyed Vehicle.id (vehicleStorage st) ->
  get (MaintenancePayload.vehicle_id payload) (vehicleStorage st)
  = Some vehicle ->
  exists st' records,
    let record :=
      {| Maintenance.id := uuidv4 env;
         Maintenance.vehicle_id := MaintenancePayload.vehicle_id payload;
         Maintenance.description := MaintenancePayload.description payload;
         Maintenance.scheduled_date := MaintenancePayload.scheduled_date payload;
         Maintenance.status := "pending";
         Maintenance.created_at := time env |} in
    First.scheduleMaintenance env payload st = (Ok record, st')
    /\ Second.scheduleMaintenance env payload st = (Ok record, st')
    /\ Second.getMaintenances st' = Ok records
    /\ In record records.
Proof.
  intros Hd Hdate Hk Hg.
  destruct (keyed_scan_Some Vehicle.id _ _ _ Hk Hg) as [others Hscan].
  apply falsy_false in Hd. apply N.leb_gt in Hdate.
  unfold First.scheduleMaintenance, Second.scheduleMaintenance,
    Second.getMaintenances.
  rewrite Hd, Hdate, Hg, Hscan. cbn [orb]. cbv zeta.
  match goal with
  | |- context [insert ?k ?v ?m] =>
      destruct (listed_after_insert k v m
                  (NotFound "No maintenance records found"))
        as (l & Hl & Hin)
  end.
  eexists. exists l. split; [reflexivity|]. split; [reflexivity|].
  split; assumption.
Qed.

(** X17. [requestEmergencyAssistance] for a stored vehicle, with a
    description and a location, stores a pending request stamped with the
    time of the call, and [getEmergencyAssistances] then lists it. *)
Theorem requestEmergencyAssistance_stores_pending (env : Env)
  (payload : EmergencyAssistancePayload.t) (st : State) (vehicle : Vehicle.t) :
  EmergencyAssistancePayload.description payload <> "" ->
  EmergencyAssistancePayload.location payload <> "" ->
  keyed Vehicle.id (vehicleStorage st) ->
  get (EmergencyAssistancePayload.vehicle_id payload) (vehicleStorage st)
  = Some vehicle ->
  exists st' records,
    let record :=
      {| EmergencyAssistance.id := uuidv4 env;
         EmergencyAssistance.vehicle_id :=
           EmergencyAssistancePayload.vehicle_id payload;
         EmergencyAssistance.description :=
           EmergencyAssistancePayload.description payload;
         EmergencyAssistance.location :=
           EmergencyAssistancePayload.location payload;
         EmergencyAssistance.status := "pending";
         EmergencyAssistance.created_at := time env |} in
    First.requestEmergencyAssistance env payload st = (Ok record, st')
    /\ Second.requestEmergencyAssistance env payload st = (Ok record, st')
    /\ First.getEmergencyAssistances st' = Ok records
    /\ Second.getEmergencyAssistances st' = Ok records
    /\ In record records.
Proof.
  intros Hd Hl Hk Hg.
  destruct (keyed_scan_Some Vehicle.id _ _ _ Hk Hg) as [others Hscan].
  apply falsy_false in Hd. apply falsy_false in Hl.
  unfold First.requestEmergencyAssistance, Second.requestEmergencyAssistance,
    First.getEmergencyAssistances, Second.getEmergencyAssistances.
  rewrite Hd, Hl, Hg, Hscan. cbn [orb]. cbv zeta.
  match goal with
  | |- context [insert ?k ?v ?m] =>
      destruct (listed_after_insert k v m
                  (NotFound "No emergency assistance records found"))
        as (l & Hl' & Hin)
  end.
  eexists. exists l. split; [reflexivity|]. split; [reflexivity|].
  repeat split; assumption.
Qed.

End VehicleRecords.

(** ** Routes, identifiers and sequences *)

Section Rest.
Context `{Host}.

(** X18. [createRoute] with both locations filled in stores a route whose
    description is built from the two locations and whose distance and
    time estimate are the constants ["100km"] and 3600, whatever the
    locations; [getRouteById] then returns it and [getRoutes] lists it. *)
Theorem createRoute_stores_placeholder_route (env : Env)
  (payload : RoutePayload.t) (st : State) :
  RoutePayload.from_location payload <> "" ->
  RoutePayload.to_location payload <> "" ->
  exists st' routes,
    let route :=
      {| Route.id := uuidv4 env;
         Route.from_location := RoutePayload.from_location payload;
         Route.to_location := RoutePayload.to_location payload;
         Route.optimized_route :=
           ("Optimized route from " ++ RoutePayload.from_location payload
            ++ " to " ++ RoutePayload.to_location payload)%string;
         Route.distance := "100km";
         Route.time_estimate := 3600 |} in
    First.createRoute env payload st = (Ok route, st')
    /\ Second.createRoute env payload st = (Ok route, st')
    /\ Second.getRouteById (uuidv4 env) st' = Ok route
    /\ First.getRoutes st' = Ok routes
    /\ Second.getRoutes st' = Ok routes
    /\ In route routes.
Proof.
  intros Hf Ht. apply falsy_false in Hf. apply falsy_false in Ht.
  unfold First.createRoute, Second.createRoute, Second.getRouteById,
    First.getRoutes, Second.getRoutes.
  rewrite Hf, Ht. cbn [orb]. cbv zeta.
  match goal with
  | |- context [insert ?k ?v ?m] =>
      destruct (listed_after_insert k v m (NotFound "No routes found"))
        as (l & Hl & Hin)
  end.
  eexists. exists l. split; [reflexivity|]. split; [reflexivity|].
  cbn [routeStorage with_routeStorage]. rewrite get_insert_eq.
  repeat split; assumption.
Qed.

(** X19. [getDriverByPrincipal] answers with the first driver of the scan
    whose owner the host takes for the caller, and with NotFound when the
    scan has none, in both handler sets. *)
Theorem getDriverByPrincipal_gives_first_owned (env : Env) (st : State) :
  gives_first (fun d => same_object (Driver.owner d) (caller env) = true)
    (values (driverStorage st)) (First.getDriverByPrincipal env st)
  /\ gives_first (fun d => same_object (Driver.owner d) (caller env) = true)
       (values (driverStorage st)) (Second.getDriverByPrincipal env st).
Proof.
  split; apply scan_gives_first; intros d; reflexivity.
Qed.

(** X20. [validateId] accepts an identifier exactly when something other
    than white space is in it. *)
Theorem validateId_accepts_iff_not_blank (id : text) :
  validateId id = true <-> ~ blank id.
Proof.
  rewrite <- validateId_false_iff.
  destruct (validateId id); split; congruence.
Qed.

(** X21. The handlers of the first set that delete or update by
    identifier turn a blank identifier down before they look at the store:
    the answer is InvalidPayload and nothing is written, even when the
    store holds an entry under that identifier. *)
Theorem first_set_guards_delete_and_update (id : text)
  (status : VehicleStatus.t) (st : State) :
  blank id ->
  First.deleteDriver id st = (Err (InvalidPayload "Invalid driver ID"), st)
  /\ First.deleteVehicle id st
     = (Err (InvalidPayload "Invalid vehicle ID"), st)
  /\ First.updateVehicleStatus id status st
     = (Err (InvalidPayload "Invalid vehicle ID"), st).
Proof.
  intros Hb. apply validateId_blank in Hb.
  unfold First.deleteDriver, First.deleteVehicle, First.updateVehicleStatus.
  rewrite Hb. repeat split.
Qed.


End Rest.

(** ** The further properties on the small fleet *)

Section MoreSamples.
#[local] Existing Instance sample_host.

Example fleet_booked_stores :
  bookingStorage fleet_booked = [("b-1", booked_trip)]
  /\ vehicleStorage fleet_booked = [("v-1", stored_van)]
  /\ bookingStorage (exec_all second_set_calls empty_state) = []
  /\ vehicleStorage (exec_all second_set_calls empty_state)
     = [("v-1", stored_van)].
Proof. repeat split; reflexivity. Qed.

(** X1, at a second driver joining the fleet. *)
Lemma call_writes_own_store_only_witness :
  vehicleStorage
    (snd (exec (sample_env 11 "d-2") (OnFirst (First.CreateDriver bob)) fleet))
  = vehicleStorage fleet.
Proof.
  apply (call_writes_own_store_only (sample_env 11 "d-2")
           (OnFirst (First.CreateDriver bob)) fleet).
  discriminate.
Defined.

(** X2, at the booked trip while a second trip is booked. *)
Lemma records_without_delete_persist_witness :
  get "b-1"
    (bookingStorage
       (snd (exec (sample_env 40 "b-2")
               (OnFirst (First.CreateBooking (trip "v-1" "d-1" 40)))
               fleet_booked)))
  = Some booked_trip.
Proof.
  destruct (records_without_delete_persist (sample_env 40 "b-2")
              (OnFirst (First.CreateBooking (trip "v-1" "d-1" 40)))
              fleet_booked "b-1") as (Hbooking & _).
  destruct Hbooking as (_ & Hsame); [discriminate|].
  rewrite Hsame; [reflexivity|discriminate].
Defined.

(** X3, at the deletion of another driver. *)
Lemma drivers_and_vehicles_leave_by_delete_only_witness :
  get "d-1"
    (driverStorage
       (snd (exec (sample_env 40 "") (OnFirst (First.DeleteDriver "d-9")) fleet)))
  <> None.
Proof.
  apply (drivers_and_vehicles_leave_by_delete_only (sample_env 40 "")
           (OnFirst (First.DeleteDriver "d-9")) fleet "d-1").
  - discriminate.
  - discriminate.
Defined.

(** X5, at Bob joining the fleet. *)
Lemma createDriver_stores_driver_witness :
  exists st',
    First.createDriver (sample_env 11 "d-2") bob fleet = (Ok stored_bob, st')
    /\ Second.getDriverById "d-2" st' = Ok stored_bob
    /\ get "d-1" (driverStorage st') = Some (stored_ada "d-1" 11).
Proof.
  destruct (createDriver_stores_driver (sample_env 11 "d-2") bob fleet)
    as (st' & Hcreate & _ & Hget & _ & Hothers);
    [discriminate|discriminate|discriminate|].
  exists st'. split; [exact Hcreate|]. split; [exact Hget|].
  rewrite Hothers; [reflexivity|discriminate].
Defined.

(** X6, at Ada leaving the fleet. *)
Lemma deleteDriver_removes_one_driver_witness :
  exists st',
    First.deleteDriver "d-1" fleet
    = (Ok (Success "Driver deleted successfully"), st')
    /\ First.getDriverById "d-1" st' = Err (NotFound "Driver not found").
Proof.
  destruct (deleteDriver_removes_one_driver "d-1" fleet (stored_ada "d-1" 11))
    as (st' & Hdel & Hget & _); [reflexivity|reflexivity|].
  exists st'. split; assumption.
Defined.

(** X7, at a second van with the registration number of the first. *)
Lemma createVehicle_stores_available_vehicle_witness :
  exists st' vehicle,
    Second.createVehicle (sample_env 40 "v-2") depot_van fleet
    = (Ok vehicle, st')
    /\ Vehicle.status vehicle = VehicleStatus.Available
    /\ Second.getVehicleById "v-2" st' = Ok vehicle
    /\ get "v-1" (vehicleStorage st') = Some stored_van.
Proof.
  destruct (createVehicle_stores_available_vehicle (sample_env 40 "v-2")
              depot_van fleet)
    as (st' & _ & Hcreate & Hget & _ & Hothers);
    [discriminate|discriminate|reflexivity|discriminate|].
  exists st'. eexists. split; [exact Hcreate|]. split; [reflexivity|].
  split; [exact Hget|].
  rewrite Hothers; [reflexivity|discriminate].
Defined.

(** X8, at the deletion of the booked van. *)
Lemma deleteVehicle_does_not_cascade_witness :
  exists st',
    First.deleteVehicle "v-1" fleet_booked
    = (Ok (Success "Vehicle deleted successfully"), st')
    /\ First.getBookingByVehicleId "v-1" st' = Ok [booked_trip]
    /\ First.createBooking (sample_env 40 "b-2") (trip "v-1" "d-1" 40) st'
       = (Err (NotFound "Vehicle not found"), st').
Proof.
  destruct (deleteVehicle_does_not_cascade "v-1" fleet_booked stored_van)
    as (st' & Hdel & _ & Hlist & _ & _ & _ & Hbook);
    [reflexivity|repeat constructor|reflexivity|].
  exists st'. split; [exact Hdel|]. split.
  - rewrite Hlist. reflexivity.
  - apply Hbook; [reflexivity|discriminate|discriminate|reflexivity].
Defined.

(** X9, at the van booked and then sent to maintenance. *)
Lemma updateVehicleStatus_read_back_last_wins_witness :
  First.getVehicleById "v-1"
    (snd (First.updateVehicleStatus "v-1" VehicleStatus.Booked fleet))
  = Ok (Vehicle.mk "v-1" "ABC-1" "Van" 4 VehicleStatus.Booked "Depot" 10)
  /\ First.getVehicleById "v-1"
       (snd (First.updateVehicleStatus "v-1" VehicleStatus.Maintenance
               (snd (First.updateVehicleStatus "v-1" VehicleStatus.Booked
                       fleet))))
     = Ok (Vehicle.mk "v-1" "ABC-1" "Van" 4 VehicleStatus.Maintenance "Depot" 10)
  /\ snd (First.updateVehicleStatus "v-1" VehicleStatus.Maintenance
            (snd (First.updateVehicleStatus "v-1" VehicleStatus.Booked fleet)))
     = fleet_in_maintenance.
Proof.
  destruct (updateVehicleStatus_read_back_last_wins "v-1"
              VehicleStatus.Booked VehicleStatus.Maintenance fleet stored_van)
    as (Hread & Hread2 & Hlast); [reflexivity|reflexivity|].
  split; [exact Hread|]. split; [exact Hread2|].
  rewrite Hlast. reflexivity.
Defined.

(** X10, at the van sent to maintenance and then asked for. *)
Lemma updateVehicleStatus_decides_booking_witness :
  First.createBooking (sample_env 30 "b-1") (trip "v-1" "d-1" 30)
    fleet_in_maintenance
  = (Err (Error "Vehicle is not available"), fleet_in_maintenance).
Proof.
  apply (updateVehicleStatus_decides_booking (sample_env 30 "b-1")
           (trip "v-1" "d-1" 30) VehicleStatus.Maintenance fleet
           stored_van (stored_ada "d-1" 11)).
  - reflexivity.
  - repeat constructor.
  - reflexivity.
  - repeat constructor.
  - reflexivity.
  - discriminate.
  - discriminate.
  - reflexivity.
  - discriminate.
Defined.

(** X11, at a trip with a van and a driver the fleet does not have. *)
Lemma createBooking_vehicle_before_driver_witness :
  First.createBooking (sample_env 30 "b-1") (trip "v-9" "d-9" 30) fleet
  = (Err (NotFound "Vehicle not found"), fleet)
  /\ First.createBooking (sample_env 30 "b-1") (trip "v-1" "d-9" 30) fleet
     = (Err (NotFound "Driver not found"), fleet).
Proof.
  split.
  - apply (createBooking_vehicle_before_driver (sample_env 30 "b-1")
             (trip "v-9" "d-9" 30) fleet);
      [discriminate|discriminate|reflexivity|repeat constructor|reflexivity].
  - apply (createBooking_vehicle_before_driver (sample_env 30 "b-1")
             (trip "v-1" "d-9" 30) fleet)
      with (vehicle := stored_van);
      [discriminate|discriminate|reflexivity|repeat constructor
      |reflexivity|reflexivity|repeat constructor|reflexivity].
Defined.

(** X12, at a van, a driver and a booking asked of the second set. *)
Lemma second_set_never_stores_a_booking_witness :
  Second.getBookingByVehicleId "v-1" (exec_all second_set_calls empty_state)
  = Err (NotFound "No bookings found").
Proof.
  apply (second_set_never_stores_a_booking second_set_calls "v-1").
  repeat constructor.
Defined.

(** X13, at the fleet. *)
Lemma key_lookup_and_scan_agree_witness :
  First.scheduleMaintenance (sample_env 40 "m-1") oil_change fleet
  = Second.scheduleMaintenance (sample_env 40 "m-1") oil_change fleet.
Proof.
  apply (key_lookup_and_scan_agree (sample_env 40 "m-1") fleet).
  repeat constructor.
Defined.

(** X14, at an amount of minus five after a space. *)
Lemma recordFuelConsumption_rejects_minus_witness :
  First.recordFuelConsumption (sample_env 20 "f-1") (fuel "v-1" " -5") fleet
  = (Err (InvalidPayload "Amount must be greater than zero"), fleet).
Proof.
  apply (recordFuelConsumption_rejects_minus (sample_env 20 "f-1")
           (fuel "v-1" " -5") fleet "5").
  - reflexivity.
  - discriminate.
Defined.

(** X15, at five and a half for the van. *)
Lemma recordFuelConsumption_stores_payload_witness :
  exists st' records,
    First.recordFuelConsumption (sample_env 20 "f-1") (fuel "v-1" "5.5") fleet
    = (Ok (FuelConsumption.mk "f-1" "v-1" "5.5" 20), st')
    /\ Second.getFuelConsumptions st' = Ok records
    /\ In (FuelConsumption.mk "f-1" "v-1" "5.5" 20) records.
Proof.
  destruct (recordFuelConsumption_stores_payload (sample_env 20 "f-1")
              (fuel "v-1" "5.5") fleet stored_van)
    as (st' & records & Hrec & _ & Hlist & Hin);
    [reflexivity|repeat constructor|reflexivity|].
  exists st', records. split; [exact Hrec|]. split; assumption.
Defined.

(** X16, at an oil change for the van already in maintenance. *)
Lemma scheduleMaintenance_stores_pending_witness :
  exists st' records record,
    First.scheduleMaintenance (sample_env 40 "m-1") oil_change
      fleet_in_maintenance
    = (Ok record, st')
    /\ Maintenance.status record = "pending"
    /\ Second.getMaintenances st' = Ok records
    /\ In record records.
Proof.
  destruct (scheduleMaintenance_stores_pending (sample_env 40 "m-1")
              oil_change fleet_in_maintenance
              (First.set_status stored_van VehicleStatus.Maintenance))
    as (st' & records & Hrec & _ & Hlist & Hin);
    [discriminate|reflexivity|repeat constructor|reflexivity|].
  exists st', records. eexists. split; [exact Hrec|].
  split; [reflexivity|]. split; assumption.
Defined.

(** X17, at a flat tyre of the van. *)
Lemma requestEmergencyAssistance_stores_pending_witness :
  exists st' records record,
    Second.requestEmergencyAssistance (sample_env 40 "e-1") flat_tyre fleet
    = (Ok record, st')
    /\ EmergencyAssistance.status record = "pending"
    /\ First.getEmergencyAssistances st' = Ok records
    /\ In record records.
Proof.
  destruct (requestEmergencyAssistance_stores_pending (sample_env 40 "e-1")
              flat_tyre fleet stored_van)
    as (st' & records & _ & Hrec & Hlist & _ & Hin);
    [discriminate|discriminate|repeat constructor|reflexivity|].
  exists st', records. eexists. split; [exact Hrec|].
  split; [reflexivity|]. split; assumption.
Defined.

(** X18, at the run to the harbour. *)
Lemma createRoute_stores_placeholder_route_witness :
  exists st' route,
    First.createRoute (sample_env 40 "r-1") harbour_run fleet = (Ok route, st')
    /\ Route.optimized_route route = "Optimized route from Depot to Harbour"
    /\ Route.distance route = "100km"
    /\ Second.getRouteById "r-1" st' = Ok route.
Proof.
  destruct (createRoute_stores_placeholder_route (sample_env 40 "r-1")
              harbour_run fleet)
    as (st' & routes & Hcreate & _ & Hget & _);
    [discriminate|discriminate|].
  exists st'. eexists. split; [exact Hcreate|].
  split; [reflexivity|]. split; [reflexivity|exact Hget].
Defined.

(** X21, at an identifier of two spaces. *)
Lemma first_set_guards_delete_and_update_witness :
  First.deleteVehicle "  " fleet
  = (Err (InvalidPayload "Invalid vehicle ID"), fleet).
Proof.
  apply (first_set_guards_delete_and_update "  " VehicleStatus.Booked fleet).
  repeat (apply blank_1; [reflexivity|]). constructor.
Defined.


End MoreSamples.
